(** * FfmpegSplitAudio: a shallow embedding of the n8n node's [execute] method

    Source: [nodes/FfmpegSplitAudio/FfmpegSplitAudio.node.ts].

    Conventions of the embedding.
    - A JavaScript [number] is an IEEE-754 double.  It is idealised here as an
      exact rational ([Q]); comparisons and arithmetic are the exact ones and
      equality of numbers is [Qeq] ([==]).
    - The external world (clock, file system, ffmpeg child process) is an
      explicit state that every effectful call threads, together with the
      trace of the calls that were made.
    - The [while] loop of the planner takes a fuel argument; running out of
      fuel ([None] for the planner, [Diverge] for a computation that calls
      it) stands for a loop that has not finished yet.
    - The host's [getNodeParameter] is taken to succeed; the other helpers
      of the host may throw. *)

From Stdlib Require Import QArith Qround Qminmax Lqa.
From Stdlib Require Import ZArith Lia Bool List String Ascii DecimalString.
Import ListNotations.

Local Open Scope Q_scope.

(** ** Numbers *)

Module Num.

Abbreviation number := Q.

(** [a < b] on numbers. *)
Definition ltb (a b : number) : bool := negb (Qle_bool b a).

(** [a <= b] on numbers. *)
Definition leb (a b : number) : bool := Qle_bool a b.

(** [Math.min(a, b)]. *)
Definition Math_min (a b : number) : number := Qmin a b.

(** The integer [n] that [Number.prototype.toFixed(2)] prints for a
    non-negative [x]: the one with [n / 100 - x] closest to zero, the larger
    one on a tie. *)
Definition hundredths_of (x : number) : Z := Qfloor (x * 100 + (1 # 2)).

(** [parseFloat(x.toFixed(2))]: [toFixed] prints a negative [x] as a minus
    sign followed by the digits of [-x]. *)
Definition toFixed2 (x : number) : number :=
  if ltb x 0 then - (hundredths_of (- x) # 100) else hundredths_of x # 100.

(** A number with at most two decimal digits. *)
Definition is_hundredths (x : number) : Prop :=
  exists n : Z, x == n # 100.

End Num.

(** ** The segment planner (lines 187-201) *)

Module Planner.
Import Num.

(** An element of the [segments] array. *)
Record Segment := mkSegment {
  index : nat;
  start : number;
  end_ : number
}.

(** The object pushed by one iteration of the loop body. *)
Definition push_segment (totalDuration segmentLength currentStart : number)
    (segmentIndex : nat) : Segment :=
  let currentEnd := Math_min (currentStart + segmentLength) totalDuration in
  {| index := segmentIndex;
     start := toFixed2 currentStart;
     end_ := toFixed2 currentEnd |}.

(** [while (currentStart < totalDuration) { ... }] with the loop variables
    [currentStart], [segmentIndex] and [segments] as arguments. *)
Fixpoint plan_loop (fuel : nat) (totalDuration segmentLength step : number)
    (currentStart : number) (segmentIndex : nat) (segments : list Segment)
    : option (list Segment) :=
  match fuel with
  | O => None
  | S fuel' =>
      if ltb currentStart totalDuration then
        plan_loop fuel' totalDuration segmentLength step
          (currentStart + step) (S segmentIndex)
          (segments ++
             [push_segment totalDuration segmentLength currentStart segmentIndex])
      else Some segments
  end.

(** Lines 187-201: [step], the initial values and the loop. *)
Definition plan_segments (fuel : nat) (totalDuration segmentLength overlap : number)
    : option (list Segment) :=
  let step := segmentLength - overlap in
  plan_loop fuel totalDuration segmentLength step 0 0%nat [].

(** The same loop without the rounding of the pushed boundaries: the values
    of [currentStart] and [currentEnd] themselves. *)
Definition raw_segment (totalDuration segmentLength step : number) (k : nat)
    : Segment :=
  let currentStart := inject_Z (Z.of_nat k) * step in
  {| index := k;
     start := currentStart;
     end_ := Math_min (currentStart + segmentLength) totalDuration |}.

(** [currentStart] after [k] more iterations of the loop. *)
Definition advance (step : number) (k : nat) (currentStart : number) : number :=
  Nat.iter k (fun c => c + step) currentStart.




End Planner.


(** ** Strings: defaults, the extension pattern, the duration pattern *)

Module Text.
Import Num.
Local Open Scope string_scope.

(** [x || d] for an optional string [x]: [undefined] and [''] are falsy. *)
Definition or_default (x : option string) (d : string) : string :=
  match x with
  | Some s => if (s =? "")%string then d else s
  | None => d
  end.

(** [[^/.]*$] at the head of [s]: no ['/'] and no ['.'] up to the end. *)
Fixpoint no_slash_dot (s : string) : bool :=
  match s with
  | EmptyString => true
  | String c s' =>
      negb (c =? "/")%char && negb (c =? ".")%char && no_slash_dot s'
  end.

(** [/\.[^/.]+$/] matches at the head of [s]. *)
Definition ext_here (s : string) : bool :=
  match s with
  | String c (String _ _ as rest) => (c =? ".")%char && no_slash_dot rest
  | _ => false
  end.

(** [s.replace(/\.[^/.]+$/, '')]: the leftmost match runs to the end of the
    string, so replacing it leaves the characters before it. *)
Fixpoint remove_ext (s : string) : string :=
  if ext_here s then EmptyString
  else match s with
       | EmptyString => EmptyString
       | String c s' => String c (remove_ext s')
       end.

(** [\d] *)
Definition is_digit (c : ascii) : bool :=
  (("0" <=? c) && (c <=? "9"))%char.

Definition digit_value (c : ascii) : Z := Z.of_nat (nat_of_ascii c) - 48.

(** The decimal digits at the head of [s], read as an integer after [acc]. *)
Fixpoint digits_value (acc : Z) (s : string) : Z :=
  match s with
  | String c s' =>
      if is_digit c then digits_value (acc * 10 + digit_value c) s' else acc
  | EmptyString => acc
  end.

(** [parseInt(s, 10)] for a string that starts with a digit. *)
Definition parseInt10 (s : string) : Z := digits_value 0 s.

(** The digits after the decimal point: [num / den] so far. *)
Fixpoint fraction_value (num : Z) (den : positive) (s : string) : Q :=
  match s with
  | String c s' =>
      if is_digit c
      then fraction_value (num * 10 + digit_value c) (den * 10) s'
      else num # den
  | EmptyString => num # den
  end.

(** [parseFloat(s)] for an unsigned decimal [s] without exponent. *)
Fixpoint parseFloat_from (acc : Z) (s : string) : Q :=
  match s with
  | String c s' =>
      if is_digit c then parseFloat_from (acc * 10 + digit_value c) s'
      else if (c =? ".")%char then inject_Z acc + fraction_value 0 1 s'
      else inject_Z acc
  | EmptyString => inject_Z acc
  end.

Definition parseFloat (s : string) : Q := parseFloat_from 0 s.

Definition str (l : list ascii) : string := string_of_list_ascii l.

(** [/Duration: (\d{2}):(\d{2}):(\d{2}\.\d{2})/] anchored at the head of
    [s]; the result holds the three capture groups. *)
Definition match_duration_at (s : string) : option (string * string * string) :=
  if prefix "Duration: " s then
    match list_ascii_of_string (substring 10 11 s) with
    | [h1; h2; c1; m1; m2; c2; s1; s2; d; f1; f2] =>
        if is_digit h1 && is_digit h2 && (c1 =? ":")%char
           && is_digit m1 && is_digit m2 && (c2 =? ":")%char
           && is_digit s1 && is_digit s2 && (d =? ".")%char
           && is_digit f1 && is_digit f2
        then Some (str [h1; h2], str [m1; m2], str [s1; s2; d; f1; f2])
        else None
    | _ => None
    end
  else None.

(** [stdout.match(/Duration: .../)]: the leftmost match. *)
Fixpoint match_duration (s : string) : option (string * string * string) :=
  match match_duration_at s with
  | Some m => Some m
  | None =>
      match s with
      | EmptyString => None
      | String _ s' => match_duration s'
      end
  end.

(** Lines 182-185. *)
Definition total_duration (durationMatch : string * string * string) : number :=
  let '(g1, g2, g3) := durationMatch in
  let hours := parseInt10 g1 in
  let minutes := parseInt10 g2 in
  let seconds := parseFloat g3 in
  (inject_Z hours * 3600 + inject_Z minutes * 60 + seconds)%Q.

End Text.

(** ** The node: data, the outside world, and [execute] (lines 152-339) *)

Module Node.
Import Num Planner Text.
Local Open Scope string_scope.

Definition Buffer := list Byte.byte.

(** The binary payload of a record: [IBinaryData] with its buffer. *)
Record IBinaryData := mkBinary {
  fileName : option string;
  fileExtension : option string;
  mimeType : string;
  data : Buffer
}.

(** A thrown value: a plain [Error], or the [NodeOperationError] that wraps
    one with the position of the record. *)
Inductive Error :=
| Err (msg : string)
| NodeOperationError (cause : Error) (itemIndex : nat).

(** [error.message] *)
Fixpoint message (e : Error) : string :=
  match e with
  | Err m => m
  | NodeOperationError c _ => message c
  end.

(** The three shapes of the [json] field of an output record. *)
Inductive Json :=
| JPlan (totalDuration segmentLength overlap : number) (segmentCount : nat)
        (segments : list Segment)
| JExtract (startTime endTime duration : number)
| JError (error : string).

(** [INodeExecutionData]; [binary] is [None] when the field is absent. *)
Record INodeExecutionData := mkOutput {
  json : Json;
  binary : option (list (string * IBinaryData));
  pairedItem : nat
}.

(** The node parameters of one record, as [getNodeParameter] resolves them;
    [None] is a parameter read with a fallback value and not set. *)
Record Params := mkParams {
  binaryPropertyName : string;
  segmentLength : number;
  overlap : number;
  outputSegments : option bool;
  startTime : number;
  endTime : number;
  customFilename : option string;
  outputBinaryPropertyName : string
}.

(** An input record: its named binary payloads and its parameters. *)
Record Item := mkItem {
  item_binary : list (string * IBinaryData);
  params : Params
}.

(** The command lines given to [execAsync], by their interpolated parts:
    - ["FFMPEG" -i "input" -f null - 2>&1 | grep "Duration"]
    - ["FFMPEG" -i "input" -ss start -t duration -c copy "output"] *)
Inductive Command :=
| ProbeCmd (ffmpeg input : string)
| ExtractCmd (ffmpeg input : string) (ss t : number) (output : string).

(** What a child process did: how it exited, what it printed, and the file
    it left at its output path, if any. *)
Record ExecResult := mkExec {
  exit_error : option Error;
  stdout : string;
  produced : option Buffer
}.

(** The calls made to the outside world, in order.  The flag tells whether
    the call succeeded; [EvExec] also tells whether an output file was left. *)
Inductive Event :=
| EvWriteFile (path : string) (ok : bool)
| EvExec (cmd : Command) (ok : bool) (left_file : bool)
| EvReadFile (path : string) (ok : bool)
| EvUnlink (path : string) (ok : bool).

Definition Files := list (string * Buffer).

Fixpoint lookup {A} (k : string) (m : list (string * A)) : option A :=
  match m with
  | [] => None
  | (k', v) :: m' => if (k' =? k)%string then Some v else lookup k m'
  end.

(** [o[k] = v] on an object kept in insertion order. *)
Fixpoint obj_set {A} (k : string) (v : A) (m : list (string * A))
    : list (string * A) :=
  match m with
  | [] => [(k, v)]
  | (k', v') :: m' =>
      if (k' =? k)%string then (k, v) :: m' else (k', v') :: obj_set k v m'
  end.

Fixpoint remove_key {A} (k : string) (m : list (string * A))
    : list (string * A) :=
  match m with
  | [] => []
  | (k', v) :: m' =>
      if (k' =? k)%string then remove_key k m' else (k', v) :: remove_key k m'
  end.

Definition exists_file (k : string) (m : Files) : bool :=
  match lookup k m with Some _ => true | None => false end.

(** The state that [execute] threads: the number of [Date.now()] calls so
    far, the temp directory, the calls made, and the [returnData] array. *)
Record State := mkState {
  clock : nat;
  files : Files;
  trace : list Event;
  returnData : list INodeExecutionData
}.

(** What the node does not decide: the run-wide settings, the host's
    helpers, the clock, the child processes and the failures of file
    writes and reads.  The oracles see the calls made so far. *)
Record Env := mkEnv {
  operation : string;
  continueOnFail : bool;
  FFMPEG_PATH : string;
  tmpdir : string;
  Date_now : nat -> Z;
  number_toString : number -> string;
  missing_binary : nat -> string -> Error;
  prepareBinaryData : Buffer -> string -> string -> Error + IBinaryData;
  exec : list Event -> Files -> Command -> ExecResult;
  writeFile_error : list Event -> string -> option Error;
  readFile_error : list Event -> string -> option Error
}.

(** How a computation ends: it returns, it throws, or it is still inside
    the planner's loop when the fuel is gone. *)
Inductive Result (A : Type) :=
| Ok (a : A)
| Throw (e : Error)
| Diverge.
Arguments Ok {A} a.
Arguments Throw {A} e.
Arguments Diverge {A}.

Definition M (A : Type) := State -> Result A * State.

Definition ret {A} (a : A) : M A := fun st => (Ok a, st).

Definition throw {A} (e : Error) : M A := fun st => (Throw e, st).

Definition bind {A B} (m : M A) (k : A -> M B) : M B :=
  fun st =>
    match m st with
    | (Ok a, st') => k a st'
    | (Throw e, st') => (Throw e, st')
    | (Diverge, st') => (Diverge, st')
    end.

Notation "x <- m ;; k" := (bind m (fun x => k))
  (at level 61, m at next level, right associativity).
Notation "m ;;; k" := (bind m (fun _ => k))
  (at level 61, right associativity).

(** [try { body } finally { cleanup }]: the cleanup runs when the body
    returns or throws, and a throwing cleanup replaces the body's result. *)
Definition try_finally {A} (body : M A) (cleanup : M unit) : M A :=
  fun st =>
    match body st with
    | (Diverge, st') => (Diverge, st')
    | (r, st') =>
        match cleanup st' with
        | (Ok _, st'') => (r, st'')
        | (Throw e, st'') => (Throw e, st'')
        | (Diverge, st'') => (Diverge, st'')
        end
    end.

(** [try { body } catch (error) { handler }] *)
Definition try_catch {A} (body : M A) (handler : Error -> M A) : M A :=
  fun st =>
    match body st with
    | (Throw e, st') => handler e st'
    | other => other
    end.

(** [promise.catch(() => {})] *)
Definition catch_ignore (m : M unit) : M unit :=
  try_catch m (fun _ => ret tt).

(** The outcome of an awaited promise of the host. *)
Definition await {A} (p : Error + A) : M A :=
  match p with
  | inl e => throw e
  | inr a => ret a
  end.

(** A result computed beforehand, continued as a computation. *)
Definition lift_result {A} (r : Result A) : M A := fun st => (r, st).

Definition log (e : Event) (st : State) : State :=
  {| clock := clock st; files := files st;
     trace := trace st ++ [e]; returnData := returnData st |}.

Definition with_files (f : Files) (st : State) : State :=
  {| clock := clock st; files := f;
     trace := trace st; returnData := returnData st |}.

(** [returnData.push(record)] *)
Definition push (record : INodeExecutionData) : M unit :=
  fun st =>
    (Ok tt,
     {| clock := clock st; files := files st; trace := trace st;
        returnData := returnData st ++ [record] |}).

(** [join(dir, name)] for a directory without a trailing separator. *)
Definition join (dir name : string) : string := dir ++ "/" ++ name.

Definition ENOENT (call path : string) : Error :=
  Err ("ENOENT: no such file or directory, " ++ call ++ " '" ++ path ++ "'").

Section WithEnv.
Variable env : Env.

(** Whether and how a deletion fails; kept apart from [Env] because only
    the cleanup consults it. *)
Variable unlink_error : list Event -> string -> option Error.

(** A number inside a template literal. *)
Definition show (x : number) : string := number_toString env x.
Definition show_nat (n : nat) : string := show (inject_Z (Z.of_nat n)).

(** [Date.now()] *)
Definition Date_now_call : M Z :=
  fun st =>
    (Ok (Date_now env (clock st)),
     {| clock := S (clock st); files := files st; trace := trace st;
        returnData := returnData st |}).

(** [this.helpers.assertBinaryData(itemIndex, name)] *)
Definition assertBinaryData (itemIndex : nat) (it : Item) (name : string)
    : M IBinaryData :=
  match lookup name (item_binary it) with
  | Some b => ret b
  | None => throw (missing_binary env itemIndex name)
  end.

(** [this.helpers.getBinaryDataBuffer(itemIndex, name)] *)
Definition getBinaryDataBuffer (itemIndex : nat) (it : Item) (name : string)
    : M Buffer :=
  match lookup name (item_binary it) with
  | Some b => ret (data b)
  | None => throw (missing_binary env itemIndex name)
  end.

(** [writeFile(path, buffer)]; a write that fails leaves no file. *)
Definition writeFile (path : string) (buffer : Buffer) : M unit :=
  fun st =>
    match writeFile_error env (trace st) path with
    | Some e => (Throw e, log (EvWriteFile path false) st)
    | None =>
        (Ok tt,
         log (EvWriteFile path true)
           (with_files (obj_set path buffer (files st)) st))
    end.

(** [readFile(path)] *)
Definition readFile (path : string) : M Buffer :=
  fun st =>
    match readFile_error env (trace st) path, lookup path (files st) with
    | Some e, _ => (Throw e, log (EvReadFile path false) st)
    | None, None => (Throw (ENOENT "open" path), log (EvReadFile path false) st)
    | None, Some b => (Ok b, log (EvReadFile path true) st)
    end.

(** [unlink(path)] *)
Definition unlink (path : string) : M unit :=
  fun st =>
    if exists_file path (files st) then
      match unlink_error (trace st) path with
      | Some e => (Throw e, log (EvUnlink path false) st)
      | None =>
          (Ok tt,
           log (EvUnlink path true)
             (with_files (remove_key path (files st)) st))
      end
    else (Throw (ENOENT "unlink" path), log (EvUnlink path false) st).

(** The file a command writes, if it has one. *)
Definition output_of (cmd : Command) : option string :=
  match cmd with
  | ProbeCmd _ _ => None
  | ExtractCmd _ _ _ _ output => Some output
  end.

(** [execAsync(cmd)]: rejects when the child process fails, and resolves
    to its [stdout] otherwise. *)
Definition execAsync (cmd : Command) : M string :=
  fun st =>
    let r := exec env (trace st) (files st) cmd in
    let st1 :=
      match output_of cmd, produced r with
      | Some output, Some b => with_files (obj_set output b (files st)) st
      | _, _ => st
      end in
    let left_file :=
      match output_of cmd, produced r with
      | Some _, Some _ => true
      | _, _ => false
      end in
    match exit_error r with
    | Some e => (Throw e, log (EvExec cmd false left_file) st1)
    | None => (Ok (stdout r), log (EvExec cmd true left_file) st1)
    end.

(** The planner as a step of the computation. *)
Definition plan (fuel : nat) (totalDuration segmentLength overlap : number)
    : M (list Segment) :=
  fun st =>
    match plan_segments fuel totalDuration segmentLength overlap with
    | Some segments => (Ok segments, st)
    | None => (Diverge, st)
    end.

(** Lines 218-230: the engine call for one segment, the read of its
    output and the new entry of [binaryOutput]. *)
Definition extract_one (binaryData : IBinaryData)
    (binaryPropertyName tempInputPath fileExtension nameWithoutExt : string)
    (segment : Segment) (duration : number) (tempOutputPath : string)
    (binaryOutput : list (string * IBinaryData))
    : M (list (string * IBinaryData)) :=
  execAsync (ExtractCmd (FFMPEG_PATH env) tempInputPath
               (start segment) duration tempOutputPath) ;;;
  extractedBuffer <- readFile tempOutputPath ;;
  let outputFilename :=
    nameWithoutExt ++ "_" ++ show (start segment) ++ "_"
      ++ show (end_ segment) ++ "." ++ fileExtension in
  segmentBinaryData <-
    await (prepareBinaryData env extractedBuffer outputFilename
             (mimeType binaryData)) ;;
  ret (obj_set (binaryPropertyName ++ "_" ++ show_nat (index segment + 1))
         segmentBinaryData binaryOutput).

(** Lines 210-231: [for (const segment of segments) { ... }], with the
    two objects the loop mutates, [binaryOutput] and [tempOutputPaths].
    The paths pushed so far are returned also when an iteration throws. *)
Fixpoint extract_segments (itemIndex : nat) (binaryData : IBinaryData)
    (binaryPropertyName tempInputPath fileExtension nameWithoutExt : string)
    (segments : list Segment)
    (binaryOutput : list (string * IBinaryData))
    (tempOutputPaths : list string) (st : State)
    : Result (list (string * IBinaryData)) * list string * State :=
  match segments with
  | [] => (Ok binaryOutput, tempOutputPaths, st)
  | segment :: rest =>
      let duration := (end_ segment - start segment)%Q in
      match Date_now_call st with
      | (Ok now, st0) =>
          let tempOutputPath :=
            join (tmpdir env)
              ("output_" ++ show (inject_Z now) ++ "_" ++ show_nat itemIndex
                 ++ "_" ++ show_nat (index segment) ++ "." ++ fileExtension) in
          let tempOutputPaths := (tempOutputPaths ++ [tempOutputPath])%list in
          match extract_one binaryData binaryPropertyName tempInputPath
                  fileExtension nameWithoutExt segment duration
                  tempOutputPath binaryOutput st0 with
          | (Ok binaryOutput, st1) =>
              extract_segments itemIndex binaryData binaryPropertyName
                tempInputPath fileExtension nameWithoutExt rest
                binaryOutput tempOutputPaths st1
          | (Throw e, st1) => (Throw e, tempOutputPaths, st1)
          | (Diverge, st1) => (Diverge, tempOutputPaths, st1)
          end
      | (Throw e, st0) => (Throw e, tempOutputPaths, st0)
      | (Diverge, st0) => (Diverge, tempOutputPaths, st0)
      end
  end.

(** Lines 245-247: the deletions of the [finally] block. *)
Fixpoint unlink_all (tempOutputPaths : list string) : M unit :=
  match tempOutputPaths with
  | [] => ret tt
  | tempPath :: rest => catch_ignore (unlink tempPath) ;;; unlink_all rest
  end.

(** Lines 203-260: what follows the planner. *)
Definition emit_plan (itemIndex : nat) (binaryData : IBinaryData)
    (p : Params) (tempInputPath fileExtension : string)
    (totalDuration : number) (segments : list Segment) : M unit :=
  let summary :=
    JPlan totalDuration (segmentLength p) (overlap p)
      (List.length segments) segments in
  if match outputSegments p with Some b => b | None => false end then
    let originalName := or_default (fileName binaryData) "audio" in
    let nameWithoutExt := remove_ext originalName in
    fun st =>
      let '(r, tempOutputPaths, st1) :=
        extract_segments itemIndex binaryData (binaryPropertyName p)
          tempInputPath fileExtension nameWithoutExt segments [] [] st in
      try_finally
        (binaryOutput <- lift_result r ;;
         push {| json := summary; binary := Some binaryOutput;
                 pairedItem := itemIndex |})
        (unlink_all tempOutputPaths) st1
  else
    push {| json := summary; binary := None; pairedItem := itemIndex |}.

(** Lines 173-260: the body of the outer [try]. *)
Definition probe_and_plan (fuel itemIndex : nat) (binaryData : IBinaryData)
    (p : Params) (tempInputPath fileExtension : string) : M unit :=
  out <- execAsync (ProbeCmd (FFMPEG_PATH env) tempInputPath) ;;
  match match_duration out with
  | None => throw (Err "Could not extract duration from audio file")
  | Some durationMatch =>
      let totalDuration := total_duration durationMatch in
      segments <- plan fuel totalDuration (segmentLength p) (overlap p) ;;
      emit_plan itemIndex binaryData p tempInputPath fileExtension
        totalDuration segments
  end.

(** Lines 164-263: the Calculate Segments operation on one record. *)
Definition calculateSegments (fuel itemIndex : nat) (binaryData : IBinaryData)
    (binaryDataBuffer : Buffer) (p : Params) : M unit :=
  let fileExtension := or_default (fileExtension binaryData) "m4a" in
  now <- Date_now_call ;;
  let tempInputPath :=
    join (tmpdir env)
      ("input_" ++ show (inject_Z now) ++ "_" ++ show_nat itemIndex
         ++ "." ++ fileExtension) in
  writeFile tempInputPath binaryDataBuffer ;;;
  try_finally
    (probe_and_plan fuel itemIndex binaryData p tempInputPath fileExtension)
    (catch_ignore (unlink tempInputPath)).

(** Lines 291-298: the name of the extracted payload. *)
Definition extract_outputFilename (customFilename : option string)
    (binaryData : IBinaryData) (startTime endTime : number)
    (fileExtension : string) : string :=
  let customFilename := match customFilename with Some s => s | None => "" end in
  if negb (customFilename =? "")%string then customFilename
  else
    let originalName := or_default (fileName binaryData) "audio" in
    let nameWithoutExt := remove_ext originalName in
    nameWithoutExt ++ "_" ++ show startTime ++ "_" ++ show endTime
      ++ "." ++ fileExtension.

(** Lines 285-316: the body of the [try] of the Extract Segment operation. *)
Definition extract_body (itemIndex : nat) (binaryData : IBinaryData)
    (p : Params) (duration : number)
    (tempInputPath tempOutputPath fileExtension : string) : M unit :=
  execAsync (ExtractCmd (FFMPEG_PATH env) tempInputPath
               (startTime p) duration tempOutputPath) ;;;
  extractedBuffer <- readFile tempOutputPath ;;
  let outputFilename :=
    extract_outputFilename (customFilename p) binaryData
      (startTime p) (endTime p) fileExtension in
  newBinaryData <-
    await (prepareBinaryData env extractedBuffer outputFilename
             (mimeType binaryData)) ;;
  push {| json := JExtract (startTime p) (endTime p) duration;
          binary := Some [(outputBinaryPropertyName p, newBinaryData)];
          pairedItem := itemIndex |}.

(** Lines 265-320: the Extract Segment operation on one record. *)
Definition extractSegment (itemIndex : nat) (binaryData : IBinaryData)
    (binaryDataBuffer : Buffer) (p : Params) : M unit :=
  if leb (endTime p) (startTime p) then
    throw (Err "End time must be greater than start time")
  else
    let duration := (endTime p - startTime p)%Q in
    let fileExtension := or_default (fileExtension binaryData) "m4a" in
    now1 <- Date_now_call ;;
    let tempInputPath :=
      join (tmpdir env)
        ("input_" ++ show (inject_Z now1) ++ "_" ++ show_nat itemIndex
           ++ "." ++ fileExtension) in
    now2 <- Date_now_call ;;
    let tempOutputPath :=
      join (tmpdir env)
        ("output_" ++ show (inject_Z now2) ++ "_" ++ show_nat itemIndex
           ++ "." ++ fileExtension) in
    writeFile tempInputPath binaryDataBuffer ;;;
    try_finally
      (extract_body itemIndex binaryData p duration
         tempInputPath tempOutputPath fileExtension)
      (catch_ignore (unlink tempInputPath) ;;;
       catch_ignore (unlink tempOutputPath)).

(** Lines 159-321: the body of the [try] of the record loop. *)
Definition process_item (fuel itemIndex : nat) (it : Item) : M unit :=
  let p := params it in
  binaryData <- assertBinaryData itemIndex it (binaryPropertyName p) ;;
  binaryDataBuffer <- getBinaryDataBuffer itemIndex it (binaryPropertyName p) ;;
  if (operation env =? "calculateSegments")%string then
    calculateSegments fuel itemIndex binaryData binaryDataBuffer p
  else if (operation env =? "extractSegment")%string then
    extractSegment itemIndex binaryData binaryDataBuffer p
  else ret tt.

(** Lines 322-335: the [catch] of the record loop. *)
Definition on_error (itemIndex : nat) (error : Error) : M unit :=
  if continueOnFail env then
    push {| json := JError (message error); binary := None;
            pairedItem := itemIndex |}
  else throw (NodeOperationError error itemIndex).

(** Lines 157-336: the record loop, from record [itemIndex] on. *)
Fixpoint execute_loop (fuel : nat) (items : list Item) (itemIndex : nat)
    : M unit :=
  match items with
  | [] => ret tt
  | it :: rest =>
      try_catch (process_item fuel itemIndex it) (on_error itemIndex) ;;;
      execute_loop fuel rest (S itemIndex)
  end.

(** Lines 152-339: [execute], started on an empty [returnData]. *)
Definition execute (fuel : nat) (items : list Item)
    : M (list (list INodeExecutionData)) :=
  fun st =>
    let st0 :=
      {| clock := clock st; files := files st; trace := trace st;
         returnData := [] |} in
    match execute_loop fuel items 0%nat st0 with
    | (Ok _, st') => (Ok [returnData st'], st')
    | (Throw e, st') => (Throw e, st')
    | (Diverge, st') => (Diverge, st')
    end.

End WithEnv.

End Node.

(** ** Reading a trace *)

Module Trace.
Import Num Node.

(** The temp file a call allocates: the file a successful write creates, or
    the output path handed to an extraction. *)
Definition allocated (e : Event) : option string :=
  match e with
  | EvWriteFile path true => Some path
  | EvExec cmd _ _ => output_of cmd
  | _ => None
  end.

(** The path a call tries to delete. *)
Definition unlinked (e : Event) : option string :=
  match e with
  | EvUnlink path _ => Some path
  | _ => None
  end.

Definition is_unlink (e : Event) : bool :=
  match unlinked e with Some _ => true | None => false end.

(** The extraction commands of a trace, in order. *)
Fixpoint extractions (tr : list Event) : list Command :=
  match tr with
  | [] => []
  | EvExec (ExtractCmd f i ss t o) _ _ :: tr' =>
      ExtractCmd f i ss t o :: extractions tr'
  | _ :: tr' => extractions tr'
  end.

Definition mentions (p : string) (l : list string) : bool :=
  existsb (String.eqb p) l.

Definition without (p : string) (l : list string) : list string :=
  filter (fun q => negb (String.eqb p q)) l.

(** The temp files that exist after a call, from those that existed before. *)
Definition live_step (live : list string) (e : Event) : list string :=
  match e with
  | EvWriteFile path true => if mentions path live then live else path :: live
  | EvExec cmd _ true =>
      match output_of cmd with
      | Some path => if mentions path live then live else path :: live
      | None => live
      end
  | EvUnlink path true => without path live
  | _ => live
  end.

(** The largest number of temp files that exist at the same time. *)
Fixpoint peak_live (live : list string) (tr : list Event) : nat :=
  match tr with
  | [] => List.length live
  | e :: tr' => Nat.max (List.length live) (peak_live (live_step live e) tr')
  end.

(** Whether every extraction starts only after a deletion was attempted for
    the output of each earlier extraction; [pending] holds the outputs not
    yet deleted. *)
Fixpoint deleted_before_next (pending : list string) (tr : list Event) : bool :=
  match tr with
  | [] => true
  | EvExec (ExtractCmd _ _ _ _ output) _ _ :: tr' =>
      match pending with
      | [] => deleted_before_next [output] tr'
      | _ :: _ => false
      end
  | EvUnlink path _ :: tr' => deleted_before_next (without path pending) tr'
  | _ :: tr' => deleted_before_next pending tr'
  end.

(** The paths that the calls of a trace allocate, in order. *)
Fixpoint allocations (tr : list Event) : list string :=
  match tr with
  | [] => []
  | e :: tr' =>
      match allocated e with
      | Some p => p :: allocations tr'
      | None => allocations tr'
      end
  end.

(** Whether the output of every successful extraction is read by the very
    next call. *)
Fixpoint reads_follow (tr : list Event) : bool :=
  match tr with
  | [] => true
  | EvExec (ExtractCmd _ _ _ _ output) true _ :: tr' =>
      match tr' with
      | EvReadFile path _ :: _ => String.eqb path output && reads_follow tr'
      | _ => false
      end
  | _ :: tr' => reads_follow tr'
  end.

(** The temp directory after the deletion of [paths], when no deletion fails. *)
Definition after_deletions (paths : list string) (f : Files) : Files :=
  fold_left (fun f q => remove_key q f) paths f.

(** An oracle that reports no failure. *)
Definition never (oracle : list Event -> string -> option Error) : Prop :=
  forall tr path, oracle tr path = None.

(** The command the batch loop issues for a segment: the offset and the
    duration are computed from the start and the end the segment holds. *)
Definition issued_for (env : Env) (tempInputPath : string) (cmd : Command)
    (segment : Planner.Segment) : Prop :=
  exists tempOutputPath,
    cmd = ExtractCmd (FFMPEG_PATH env) tempInputPath (Planner.start segment)
            (Planner.end_ segment - Planner.start segment)%Q tempOutputPath.

(** Whether the run-wide operation is one of the two the node offers. *)
Definition known_operation (env : Env) : bool :=
  String.eqb (operation env) "calculateSegments"
  || String.eqb (operation env) "extractSegment".

(** The shape of the calls of one finished record, from state [st] to state
    [st']: first [body], in which nothing is deleted, then [deletions], one
    attempt per path of [paths] and in that order; every path that [body]
    allocates is among [paths]; and when no deletion fails, the temp
    directory at the end is what the deletions leave. *)
Definition record_shape (unlink_error : list Event -> string -> option Error)
    (st st' : State) (body deletions : list Event) (paths : list string) : Prop :=
  trace st' = (trace st ++ body ++ deletions)%list
  /\ Forall (fun e => is_unlink e = false) body
  /\ map unlinked deletions = map Some paths
  /\ (forall p, In p (allocations body) -> In p paths)
  /\ (never unlink_error ->
      exists before, files st' = after_deletions paths before).

(** What the processing of record [itemIndex] does to [returnData] and to
    the outside world, from state [st] to state [st'] with result [r]: a
    throw pushes nothing, a return pushes one record paired with the input
    (nothing for an unknown operation), and a finished record has the shape
    of [record_shape], each output being read right after its extraction. *)
Definition record_summary (env : Env)
    (unlink_error : list Event -> string -> option Error)
    (itemIndex : nat) (st : State) (r : Result unit) (st' : State) : Prop :=
  (forall e, r = Throw e -> returnData st' = returnData st)
  /\ (r = Diverge -> returnData st' = returnData st)
  /\ (r = Ok tt ->
      if known_operation env
      then exists o, returnData st' = (returnData st ++ [o])%list
                     /\ pairedItem o = itemIndex
      else returnData st' = returnData st)
  /\ (r <> Diverge ->
      exists body deletions paths,
        record_shape unlink_error st st' body deletions paths
        /\ reads_follow body = true).



End Trace.

(** ** A concrete environment for the examples *)

Module Fixture.
Import Num Planner Text Node.
Local Open Scope string_scope.

Definition show_Z (z : Z) : string :=
  DecimalString.NilZero.string_of_int (Z.to_int z).

(** How JavaScript prints a number with at most two decimal digits (and
    below 1e21): no trailing zeros, no decimal point for an integer. *)
Definition decimal_toString (x : number) : string :=
  let neg := ltb x 0 in
  let n := hundredths_of (if neg then (- x)%Q else x) in
  let sign := if neg && negb (n =? 0)%Z then "-" else "" in
  let whole := show_Z (n / 100) in
  let frac := (n mod 100)%Z in
  if (frac =? 0)%Z then sign ++ whole
  else if (frac mod 10 =? 0)%Z then sign ++ whole ++ "." ++ show_Z (frac / 10)
  else if (frac <? 10)%Z then sign ++ whole ++ ".0" ++ show_Z frac
  else sign ++ whole ++ "." ++ show_Z frac.

(** An engine that always succeeds: the probe prints [probe_stdout], an
    extraction leaves a one-byte file. *)
Definition engine_ok (probe_stdout : string)
    (_ : list Event) (_ : Files) (cmd : Command) : ExecResult :=
  match cmd with
  | ProbeCmd _ _ =>
      {| exit_error := None; stdout := probe_stdout; produced := None |}
  | ExtractCmd _ _ _ _ _ =>
      {| exit_error := None; stdout := ""; produced := Some [Byte.x2a] |}
  end.

(** An engine whose probe succeeds and whose extractions all fail. *)
Definition engine_extract_fails (probe_stdout : string)
    (_ : list Event) (_ : Files) (cmd : Command) : ExecResult :=
  match cmd with
  | ProbeCmd _ _ =>
      {| exit_error := None; stdout := probe_stdout; produced := None |}
  | ExtractCmd _ _ _ _ _ =>
      {| exit_error := Some (Err "Command failed: ffmpeg"); stdout := "";
         produced := None |}
  end.

Definition env_of (op : string) (recover : bool)
    (engine : list Event -> Files -> Command -> ExecResult) : Env :=
  {| operation := op;
     continueOnFail := recover;
     FFMPEG_PATH := "/opt/ffmpeg";
     tmpdir := "/tmp";
     Date_now := fun k => (1700000000000 + Z.of_nat k)%Z;
     number_toString := decimal_toString;
     missing_binary := fun _ name => Err ("No binary data property: " ++ name);
     prepareBinaryData := fun buffer name mime =>
       inr {| fileName := Some name; fileExtension := None;
              mimeType := mime; data := buffer |};
     exec := engine;
     writeFile_error := fun _ _ => None;
     readFile_error := fun _ _ => None |}.

(** The same environment on a disk that refuses every write. *)
Definition on_full_disk (env : Env) : Env :=
  {| operation := operation env;
     continueOnFail := continueOnFail env;
     FFMPEG_PATH := FFMPEG_PATH env;
     tmpdir := tmpdir env;
     Date_now := Date_now env;
     number_toString := number_toString env;
     missing_binary := missing_binary env;
     prepareBinaryData := prepareBinaryData env;
     exec := exec env;
     writeFile_error := fun _ _ => Some (Err "ENOSPC: no space left on device, write");
     readFile_error := readFile_error env |}.

Definition never_fails (_ : list Event) (_ : string) : option Error := None.
Definition always_fails (_ : list Event) (_ : string) : option Error :=
  Some (Err "EPERM: operation not permitted, unlink").

Definition payload (name : option string) : IBinaryData :=
  {| fileName := name; fileExtension := Some "m4a";
     mimeType := "audio/mp4"; data := [Byte.x01; Byte.x02] |}.

Definition plan_params (len ovl : number) (out : bool) : Params :=
  {| binaryPropertyName := "data"; segmentLength := len; overlap := ovl;
     outputSegments := Some out; startTime := 0; endTime := 30 # 1;
     customFilename := None; outputBinaryPropertyName := "data" |}.

Definition range_params (from to : number) (custom : option string) : Params :=
  {| binaryPropertyName := "data"; segmentLength := 30 # 1; overlap := 0;
     outputSegments := None; startTime := from; endTime := to;
     customFilename := custom; outputBinaryPropertyName := "data" |}.

Definition item_of (name : option string) (p : Params) : Item :=
  {| item_binary := [("data", payload name)]; params := p |}.

Definition empty_state : State :=
  {| clock := 0; files := []; trace := []; returnData := [] |}.

Definition one_second : string :=
  "  Duration: 00:00:01.00, start: 0.000000, bitrate: 64 kb/s".

End Fixture.

(** ** Further readings: files, keys, printed durations *)

Module Reading.
Import Num Planner Text Node Trace.
Local Open Scope string_scope.

(** Whether a call has changed the file at [q]: a write that succeeded, a
    child process that left its output, a deletion that succeeded. *)
Definition changes (q : string) (e : Event) : bool :=
  match e with
  | EvWriteFile path true => String.eqb path q
  | EvExec cmd _ true =>
      match output_of cmd with
      | Some path => String.eqb path q
      | None => false
      end
  | EvUnlink path true => String.eqb path q
  | _ => false
  end.

(** No call of [tr] has changed the file at [q]. *)
Definition untouched (q : string) (tr : list Event) : bool :=
  forallb (fun e => negb (changes q e)) tr.


(** A computation that only appends to the trace, and leaves every file
    that its calls have not changed as it was. *)
Definition frames {A} (c : M A) : Prop :=
  forall st,
  exists tr,
    trace (snd (c st)) = (trace st ++ tr)%list
    /\ forall q, untouched q tr = true ->
                 lookup q (files (snd (c st))) = lookup q (files st).



(** A string without full stop. *)
Fixpoint no_dot (s : string) : bool :=
  match s with
  | EmptyString => true
  | String c s' => negb (c =? ".")%char && no_dot s'
  end.

(** The key of the binary payload of segment [k] (counted from 0) in the
    output record. *)
Definition segment_key (env : Env) (binaryPropertyName : string) (k : nat)
    : string :=
  binaryPropertyName ++ "_" ++ show_nat env (k + 1).

End Reading.

(** * Properties *)

(** ** Numbers and rounding *)

Module NumFacts.
Import Num.


Lemma ltb_true (a b : number) : ltb a b = true <-> a < b.
Proof.
  unfold ltb. rewrite negb_true_iff.
  split; intro H.
  - apply Qnot_le_lt. intro Hle. apply Qle_bool_iff in Hle. congruence.
  - destruct (Qle_bool b a) eqn:E; [|reflexivity].
    apply Qle_bool_iff in E. exfalso. apply (Qlt_not_le _ _ H E).
Qed.

Lemma ltb_false (a b : number) : ltb a b = false <-> b <= a.
Proof.
  unfold ltb. rewrite negb_false_iff. apply Qle_bool_iff.
Qed.

Lemma leb_true (a b : number) : leb a b = true <-> a <= b.
Proof. apply Qle_bool_iff. Qed.

#[export] Instance ltb_proper : Proper (Qeq ==> Qeq ==> eq) ltb.
Proof.
  intros a a' Ha b b' Hb. unfold ltb. now rewrite Ha, Hb.
Qed.




#[export] Instance hundredths_of_proper : Proper (Qeq ==> eq) hundredths_of.
Proof.
  intros a b H. unfold hundredths_of. apply Qfloor_comp. now rewrite H.
Qed.

#[export] Instance toFixed2_proper : Proper (Qeq ==> Qeq) toFixed2.
Proof.
  intros a b H. unfold toFixed2. rewrite H.
  destruct (ltb b 0); now rewrite H.
Qed.


Lemma toFixed2_hundredths (x : number) : is_hundredths (toFixed2 x).
Proof.
  unfold toFixed2. destruct (ltb x 0).
  - exists (Z.opp (hundredths_of (- x))). reflexivity.
  - exists (hundredths_of x). reflexivity.
Qed.

Lemma toFixed2_zero : toFixed2 0 == 0.
Proof. reflexivity. Qed.




Lemma is_hundredths_Z (k : Z) : is_hundredths (inject_Z k).
Proof.
  exists (k * 100)%Z. unfold Qeq, inject_Z. simpl. lia.
Qed.


#[export] Instance is_hundredths_proper : Proper (Qeq ==> iff) is_hundredths.
Proof.
  intros a b H. unfold is_hundredths.
  split; intros [n Hn]; exists n; [now rewrite <- H | now rewrite H].
Qed.

End NumFacts.

(** ** The planner's loop *)

Module PlannerFacts.
Import Num Planner NumFacts.

Lemma advance_shift (step : number) (k : nat) (c : number) :
  advance step k (c + step) = advance step (S k) c.
Proof. unfold advance. now rewrite Nat.iter_succ_r. Qed.

Lemma advance_value (step : number) (k : nat) (c : number) :
  advance step k c == c + inject_Z (Z.of_nat k) * step.
Proof.
  induction k as [|k IH].
  - simpl. change (inject_Z (Z.of_nat 0)) with 0. ring.
  - unfold advance in *. simpl Nat.iter. rewrite IH.
    rewrite Nat2Z.inj_succ, <- Z.add_1_r, inject_Z_plus.
    change (inject_Z 1) with 1. ring.
Qed.

Section Loop.
Variables totalDuration segmentLength step : number.

Let emitted (currentStart : number) (segmentIndex : nat) (j : nat) : Segment :=
  push_segment totalDuration segmentLength
    (advance step j currentStart) (segmentIndex + j).

(** A finished loop has appended one segment per iteration, and stopped
    at the first [currentStart] that is not below [totalDuration]. *)
Lemma plan_loop_some (fuel : nat) :
  forall (currentStart : number) (segmentIndex : nat)
         (segments result : list Segment),
    plan_loop fuel totalDuration segmentLength step
      currentStart segmentIndex segments = Some result ->
    exists n : nat,
      result = segments ++ map (emitted currentStart segmentIndex) (seq 0 n)
      /\ (forall j, (j < n)%nat -> advance step j currentStart < totalDuration)
      /\ totalDuration <= advance step n currentStart
      /\ (n < fuel)%nat.
Proof.
  induction fuel as [|fuel IH]; intros c i segs res H; [discriminate|].
  simpl in H. destruct (ltb c totalDuration) eqn:E.
  - apply IH in H. destruct H as (n & Hres & Hlt & Hge & Hn).
    exists (S n). repeat split.
    + rewrite Hres, <- app_assoc. f_equal. simpl. f_equal.
      * unfold emitted. simpl. now rewrite Nat.add_0_r.
      * rewrite <- seq_shift, map_map. apply map_ext. intro j.
        unfold emitted. rewrite advance_shift. f_equal. lia.
    + intros j Hj. destruct j as [|j].
      * simpl. now apply ltb_true.
      * rewrite <- advance_shift. apply Hlt. lia.
    + now rewrite <- advance_shift.
    + lia.
  - injection H as <-. exists 0%nat. repeat split.
    + simpl. now rewrite app_nil_r.
    + intros j Hj. lia.
    + simpl. now apply ltb_false.
    + lia.
Qed.



(** With a step that does not advance, the loop never ends. *)
Lemma plan_loop_spins (fuel : nat) :
  step <= 0 ->
  forall (currentStart : number) (segmentIndex : nat) (segments : list Segment),
    currentStart < totalDuration ->
    plan_loop fuel totalDuration segmentLength step
      currentStart segmentIndex segments = None.
Proof.
  intros Hstep. induction fuel as [|fuel IH]; intros c i segs Hc; [reflexivity|].
  simpl. apply ltb_true in Hc as E. rewrite E.
  apply IH. lra.
Qed.

End Loop.




Lemma nth_error_map_seq {A} (f : nat -> A) (n k : nat) (a : A) :
  nth_error (map f (seq 0 n)) k = Some a -> (k < n)%nat /\ a = f k.
Proof.
  intro H.
  assert (Hk : (k < List.length (map f (seq 0 n)))%nat).
  { apply nth_error_Some. congruence. }
  rewrite length_map, length_seq in Hk.
  split; [assumption|].
  rewrite nth_error_map, nth_error_seq in H.
  apply Nat.ltb_lt in Hk. rewrite Hk in H. simpl in H. congruence.
Qed.




End PlannerFacts.

(** ** The plan: boundaries, count, termination *)

Module PlannerClaims.
Import Num Planner NumFacts PlannerFacts.

(** Scenario B of the specification: 95 seconds, 30 second segments, 5
    seconds of overlap. *)
Example plan_95_30_5 :
  plan_segments 5 (95 # 1) (30 # 1) (5 # 1)
  = Some [ {| index := 0; start := 0 # 100; end_ := 3000 # 100 |};
           {| index := 1; start := 2500 # 100; end_ := 5500 # 100 |};
           {| index := 2; start := 5000 # 100; end_ := 8000 # 100 |};
           {| index := 3; start := 7500 # 100; end_ := 9500 # 100 |} ].
Proof. reflexivity. Qed.

(** An eighth of a second is an exact double, and so are its multiples: the
    plan of one second in segments of 0.125 s shows the rounding of the
    reported boundaries ([0.125.toFixed(2)] is ["0.13"]). *)
Example plan_1_eighth :
  plan_segments 9 (1 # 1) (1 # 8) 0
  = Some [ {| index := 0; start := 0 # 100; end_ := 13 # 100 |};
           {| index := 1; start := 13 # 100; end_ := 25 # 100 |};
           {| index := 2; start := 25 # 100; end_ := 38 # 100 |};
           {| index := 3; start := 38 # 100; end_ := 50 # 100 |};
           {| index := 4; start := 50 # 100; end_ := 63 # 100 |};
           {| index := 5; start := 63 # 100; end_ := 75 # 100 |};
           {| index := 6; start := 75 # 100; end_ := 88 # 100 |};
           {| index := 7; start := 88 # 100; end_ := 100 # 100 |} ].
Proof. reflexivity. Qed.







(** With overlap >= segmentLength and a positive duration the loop of the
    planner never ends, whatever the fuel. *)
Lemma plan_segments_spins (fuel : nat) (totalDuration segmentLength overlap : number) :
  segmentLength <= overlap -> 0 < totalDuration ->
  plan_segments fuel totalDuration segmentLength overlap = None.
Proof.
  intros Hov Ht. unfold plan_segments.
  apply plan_loop_spins; [lra | assumption].
Qed.

End PlannerClaims.

(** ** The probed duration *)

Module ProbeFacts.
Import Num Text NumFacts.
Local Open Scope string_scope.







Example probe_of_ffmpeg_banner :
  option_map total_duration
    (match_duration "  Duration: 00:01:35.07, start: 0.000000, bitrate: 128 kb/s")
  = Some (9507 # 100).
Proof. reflexivity. Qed.

End ProbeFacts.

(** ** The calls to the outside world *)

Module NodeFacts.
Import Num Planner Text Node Trace NumFacts.
Local Open Scope string_scope.




Lemma after_deletions_app (l1 l2 : list string) (f : Files) :
  after_deletions (l1 ++ l2) f = after_deletions l2 (after_deletions l1 f).
Proof. unfold after_deletions. apply fold_left_app. Qed.



Lemma extractions_app (t1 t2 : list Event) :
  extractions (t1 ++ t2) = (extractions t1 ++ extractions t2)%list.
Proof.
  induction t1 as [|e t1 IH]; simpl; [reflexivity|].
  destruct e as [| [|] | |]; simpl; now rewrite ?IH.
Qed.

Section Calls.
Variable env : Env.
Variable unlink_error : list Event -> string -> option Error.

(** A child process leaves one entry in the trace and touches nothing else
    but, for an extraction, its output file. *)
Lemma execAsync_spec (cmd : Command) (st : State) :
  exists r st' ok lf,
    execAsync env cmd st = (r, st')
    /\ trace st' = (trace st ++ [EvExec cmd ok lf])%list
    /\ returnData st' = returnData st
    /\ clock st' = clock st
    /\ r <> Diverge
    /\ (ok = true <-> exists out, r = Ok out).
Proof.
  unfold execAsync.
  destruct (exit_error (exec env (trace st) (files st) cmd)) eqn:E;
    destruct (output_of cmd), (produced (exec env (trace st) (files st) cmd));
    do 4 eexists; (split; [reflexivity|]); simpl;
    (split; [reflexivity|]); (split; [reflexivity|]);
    (split; [reflexivity|]); (split; [discriminate|]);
    (split; [first [discriminate | eauto]
            | first [reflexivity | intros [? ?]; discriminate]]).
Qed.

Lemma readFile_spec (path : string) (st : State) :
  exists r st' ok,
    readFile env path st = (r, st')
    /\ trace st' = (trace st ++ [EvReadFile path ok])%list
    /\ returnData st' = returnData st
    /\ clock st' = clock st
    /\ files st' = files st
    /\ r <> Diverge.
Proof.
  unfold readFile.
  destruct (readFile_error env (trace st) path), (lookup path (files st));
    do 3 eexists; (split; [reflexivity|]); simpl; repeat split; discriminate.
Qed.

(** A deletion whose failure is ignored always returns, after one attempt. *)
Lemma unlink_quiet_spec (path : string) (st : State) :
  exists st' ok,
    catch_ignore (unlink unlink_error path) st = (Ok tt, st')
    /\ trace st' = (trace st ++ [EvUnlink path ok])%list
    /\ returnData st' = returnData st
    /\ clock st' = clock st
    /\ (never unlink_error -> files st' = remove_key path (files st)).
Proof.
  unfold catch_ignore, try_catch, unlink, exists_file.
  destruct (lookup path (files st)) eqn:El.
  - destruct (unlink_error (trace st) path) eqn:Eu.
    + do 2 eexists. split; [reflexivity|]. simpl. repeat split.
      intro Hn. rewrite Hn in Eu. discriminate.
    + do 2 eexists. split; [reflexivity|]. simpl. repeat split.
  - do 2 eexists. split; [reflexivity|]. simpl. repeat split.
    intros _. clear - El. induction (files st) as [|[k v] m IH]; simpl in *.
    + reflexivity.
    + destruct (k =? path); [discriminate|]. now rewrite <- IH.
Qed.

(** The deletions of a [finally] block: one attempt per path, in order, and
    never an error. *)
Lemma unlink_all_spec (paths : list string) :
  forall st : State,
  exists st' deletions,
    unlink_all unlink_error paths st = (Ok tt, st')
    /\ trace st' = (trace st ++ deletions)%list
    /\ map unlinked deletions = map Some paths
    /\ returnData st' = returnData st
    /\ clock st' = clock st
    /\ (never unlink_error -> files st' = after_deletions paths (files st)).
Proof.
  induction paths as [|p paths IH]; intro st; simpl.
  - exists st, []. unfold ret. rewrite app_nil_r. repeat split.
  - destruct (unlink_quiet_spec p st) as (st1 & ok & H1 & Ht1 & Hr1 & Hc1 & Hf1).
    destruct (IH st1) as (st2 & dels & H2 & Ht2 & Hu2 & Hr2 & Hc2 & Hf2).
    exists st2, (EvUnlink p ok :: dels).
    unfold bind. rewrite H1, H2. split; [reflexivity|].
    rewrite Ht2, Ht1, <- app_assoc. simpl.
    repeat split; try congruence.
    intro Hn. rewrite (Hf2 Hn), (Hf1 Hn). reflexivity.
Qed.

(** One iteration of the batch loop: the extraction, and the read of its
    output when the extraction succeeded. *)
Lemma extract_one_spec (binaryData : IBinaryData)
    (name tempInputPath fileExtension nameWithoutExt : string)
    (segment : Segment) (duration : number) (tempOutputPath : string)
    (binaryOutput : list (string * IBinaryData)) (st : State) :
  let cmd := ExtractCmd (FFMPEG_PATH env) tempInputPath
               (start segment) duration tempOutputPath in
  exists r st' tr lf,
    extract_one env binaryData name tempInputPath fileExtension nameWithoutExt
      segment duration tempOutputPath binaryOutput st = (r, st')
    /\ trace st' = (trace st ++ tr)%list
    /\ returnData st' = returnData st
    /\ r <> Diverge
    /\ ((tr = [EvExec cmd false lf] /\ exists e, r = Throw e)
        \/ (exists ok, tr = [EvExec cmd true lf; EvReadFile tempOutputPath ok])).
Proof.
  intro cmd. unfold extract_one, bind. fold cmd.
  destruct (execAsync_spec cmd st) as (r1 & st1 & ok & lf & H1 & Ht1 & Hr1 & _ & Hd1 & Hok).
  rewrite H1. destruct r1 as [out | e |].
  - assert (ok = true) by (apply Hok; eauto). subst ok.
    destruct (readFile_spec tempOutputPath st1)
      as (r2 & st2 & ok2 & H2 & Ht2 & Hr2 & _ & _ & Hd2).
    rewrite H2. destruct r2 as [buf | e |].
    + unfold await, ret, throw.
      destruct (prepareBinaryData env buf _ (mimeType binaryData));
        do 4 eexists; (split; [reflexivity|]);
        rewrite Ht2, Ht1, <- app_assoc; simpl;
        (repeat split; [congruence | discriminate | right; eauto]).
    + do 4 eexists. split; [reflexivity|].
      rewrite Ht2, Ht1, <- app_assoc. simpl.
      repeat split; [congruence | discriminate | right; eauto].
    + congruence.
  - assert (ok = false).
    { destruct ok; [|reflexivity]. destruct Hok as [Hok _].
      destruct (Hok eq_refl). discriminate. }
    subst ok. do 4 eexists. split; [reflexivity|].
    repeat split; [eassumption | congruence | discriminate | left; eauto].
  - congruence.
Qed.

(** The batch loop: it deletes nothing, it pushes the output path of every
    extraction it starts, it reads each output before the next extraction,
    and it issues one command per segment until one fails. *)
Lemma extract_segments_spec (itemIndex : nat) (binaryData : IBinaryData)
    (name tempInputPath fileExtension nameWithoutExt : string)
    (segments : list Segment) :
  forall (binaryOutput : list (string * IBinaryData))
         (tempOutputPaths : list string) (st : State),
  exists r paths st' tr,
    extract_segments env itemIndex binaryData name tempInputPath fileExtension
      nameWithoutExt segments binaryOutput tempOutputPaths st = (r, paths, st')
    /\ trace st' = (trace st ++ tr)%list
    /\ returnData st' = returnData st
    /\ r <> Diverge
    /\ Forall (fun e => is_unlink e = false) tr
    /\ paths = (tempOutputPaths ++ allocations tr)%list
    /\ reads_follow tr = true
    /\ Forall2 (issued_for env tempInputPath) (extractions tr)
         (firstn (List.length (extractions tr)) segments)
    /\ (forall b, r = Ok b -> List.length (extractions tr) = List.length segments).
Proof.
  induction segments as [|segment rest IH]; intros bo paths0 st.
  - exists (Ok bo), paths0, st, []. simpl. rewrite !app_nil_r.
    repeat split; try constructor. discriminate.
  - simpl. set (st0 := {| clock := S (clock st); files := files st;
                          trace := trace st; returnData := returnData st |}).
    set (out := join (tmpdir env) _).
    destruct (extract_one_spec binaryData name tempInputPath fileExtension
                nameWithoutExt segment (end_ segment - start segment)%Q out bo st0)
      as (r1 & st1 & tr1 & lf & H1 & Ht1 & Hr1 & Hd1 & Hshape).
    rewrite H1. destruct r1 as [bo1 | e |]; [| |congruence].
    + destruct Hshape as [[_ [e He]] | [ok Htr1]]; [discriminate|].
      destruct (IH bo1 (paths0 ++ [out])%list st1)
        as (r & paths & st' & tr & H & Ht & Hr & Hd & Hnu & Hp & Hrf & Hcmd & Hlen).
      exists r, paths, st', (tr1 ++ tr)%list. split; [exact H|].
      subst tr1. simpl in *.
      split; [rewrite Ht, Ht1, <- app_assoc; reflexivity|].
      split; [congruence|]. split; [assumption|].
      split; [repeat constructor; assumption|].
      split; [rewrite Hp, <- app_assoc; reflexivity|].
      split; [rewrite String.eqb_refl; exact Hrf|].
      split; [constructor; [exists out; reflexivity | exact Hcmd]|].
      intros b Hb. f_equal. eauto.
    + exists (Throw e), (paths0 ++ [out])%list, st1, tr1.
      split; [reflexivity|].
      split; [exact Ht1|]. split; [exact Hr1|]. split; [discriminate|].
      destruct Hshape as [[-> _] | [ok ->]]; simpl;
        (split; [repeat constructor|]); (split; [reflexivity|]);
        (split; [rewrite ?String.eqb_refl; reflexivity|]);
        (split; [constructor; [exists out; reflexivity | constructor]|]);
        discriminate.
Qed.

(** A [finally] block that never throws leaves the result of the [try]
    block as it is. *)
Lemma try_finally_quiet {A} (body : M A) (cleanup : M unit) (st : State) :
  (forall s, exists s', cleanup s = (Ok tt, s')) ->
  exists r mid st',
    body st = (r, mid)
    /\ try_finally body cleanup st = (r, st')
    /\ (r = Diverge -> st' = mid)
    /\ (r <> Diverge -> cleanup mid = (Ok tt, st')).
Proof.
  intro Hq. unfold try_finally.
  destruct (body st) as [r mid]. destruct (Hq mid) as [st' Hc].
  destruct r as [a | e |].
  - exists (Ok a), mid, st'. rewrite Hc. repeat split; congruence.
  - exists (Throw e), mid, st'. rewrite Hc. repeat split; congruence.
  - exists Diverge, mid, mid. repeat split; congruence.
Qed.

Lemma unlink_all_quiet (paths : list string) (s : State) :
  exists s', unlink_all unlink_error paths s = (Ok tt, s').
Proof.
  destruct (unlink_all_spec paths s) as (s' & _ & H & _). eauto.
Qed.

(** Lines 203-260.  With [outputSegments] set: the batch loop, the push of
    the record when no extraction failed, and then the deletion of every
    output path the loop allocated. *)
Lemma emit_plan_spec (itemIndex : nat) (binaryData : IBinaryData) (p : Params)
    (tempInputPath fileExtension : string) (totalDuration : number)
    (segments : list Segment) (st : State) :
  exists r st' body deletions,
    emit_plan env unlink_error itemIndex binaryData p tempInputPath fileExtension
      totalDuration segments st = (r, st')
    /\ r <> Diverge
    /\ record_shape unlink_error st st' body deletions (allocations body)
    /\ reads_follow body = true
    /\ Forall2 (issued_for env tempInputPath) (extractions body)
         (firstn (List.length (extractions body)) segments)
    /\ (outputSegments p = Some true -> r = Ok tt ->
        List.length (extractions body) = List.length segments)
    /\ (outputSegments p <> Some true -> body = [])
    /\ (forall e, r = Throw e -> returnData st' = returnData st)
    /\ (r = Ok tt ->
        exists bin,
          returnData st'
          = (returnData st
             ++ [ {| json := JPlan totalDuration (segmentLength p) (overlap p)
                               (List.length segments) segments;
                     binary := bin; pairedItem := itemIndex |} ])%list
          /\ (bin = None <-> outputSegments p <> Some true)).
Proof.
  unfold emit_plan.
  destruct (match outputSegments p with Some b => b | None => false end) eqn:Eo.
  - assert (Hout : outputSegments p = Some true).
    { destruct (outputSegments p) as [[|]|]; congruence. }
    destruct (extract_segments_spec itemIndex binaryData (binaryPropertyName p)
                tempInputPath fileExtension
                (remove_ext (or_default (fileName binaryData) "audio"))
                segments [] [] st)
      as (r1 & paths & st1 & tr & H1 & Ht1 & Hr1 & Hd1 & Hnu & Hp & Hrf & Hcmd & Hlen).
    rewrite H1. simpl in Hp. subst paths.
    match goal with
    | |- context [try_finally ?b ?c st1] =>
        destruct (try_finally_quiet b c st1 (unlink_all_quiet (allocations tr)))
          as (r & mid & st' & Hb & Htf & _ & Hc)
    end.
    exists r, st', tr.
    assert (Hr : r <> Diverge).
    { unfold bind, lift_result, push in Hb. destruct r1; inversion Hb; subst;
        congruence. }
    specialize (Hc Hr).
    destruct (unlink_all_spec (allocations tr) mid)
      as (st2 & dels & H2 & Ht2 & Hu2 & Hr2 & _ & Hf2).
    rewrite Hc in H2. injection H2 as <-.
    exists dels. split; [exact Htf|]. split; [exact Hr|].
    assert (Hmid : trace mid = trace st1 /\
                   ((exists e, r = Throw e /\ returnData mid = returnData st1)
                    \/ (exists bo, r1 = Ok bo /\ r = Ok tt /\
                        returnData mid
                        = (returnData st1
                           ++ [ {| json := JPlan totalDuration (segmentLength p)
                                             (overlap p) (List.length segments)
                                             segments;
                                   binary := Some bo;
                                   pairedItem := itemIndex |} ])%list))).
    { unfold bind, lift_result, push in Hb. destruct r1; inversion Hb; subst;
        simpl; split; eauto. congruence. }
    destruct Hmid as [Htm Hres].
    split.
    { unfold record_shape. rewrite Ht2, Htm, Ht1, <- app_assoc.
      repeat split; try assumption. auto.
      intro Hn. eexists. apply (Hf2 Hn). }
    split; [exact Hrf|]. split; [exact Hcmd|].
    split.
    { intros _ Hok. destruct Hres as [(e & He & _) | (bo & Hbo & _)];
        [congruence | eauto]. }
    split; [congruence|].
    split.
    { intros e He. destruct Hres as [(e' & _ & Hrd) | (bo & _ & Hk & _)];
        [congruence | congruence]. }
    intros Hok. destruct Hres as [(e' & He & _) | (bo & _ & _ & Hrd)];
      [congruence|].
    eexists. split; [rewrite Hr2, Hrd, Hr1; reflexivity|].
    split; [discriminate | congruence].
  - assert (Hout : outputSegments p <> Some true).
    { destruct (outputSegments p) as [[|]|]; congruence. }
    unfold push. do 2 eexists. exists [], []. split; [reflexivity|].
    split; [discriminate|].
    split.
    { unfold record_shape. simpl. rewrite app_nil_r.
      repeat split; try constructor. contradiction.
      intros _. exists (files st). reflexivity. }
    split; [reflexivity|]. split; [constructor|].
    split; [congruence|]. split; [reflexivity|].
    split; [discriminate|].
    intros _. eexists. split; [reflexivity|]. split; auto.
Qed.

(** The ways through lines 173-260: the probe fails, its output has no
    duration, the planner does not finish, or the plan is emitted. *)
Lemma probe_and_plan_cases (fuel itemIndex : nat) (binaryData : IBinaryData)
    (p : Params) (tempInputPath fileExtension : string) (st : State) :
  let probe := ProbeCmd (FFMPEG_PATH env) tempInputPath in
  let run := probe_and_plan env unlink_error fuel itemIndex binaryData p
               tempInputPath fileExtension st in
  exists rp stp ok lf,
    execAsync env probe st = (rp, stp)
    /\ trace stp = (trace st ++ [EvExec probe ok lf])%list
    /\ returnData stp = returnData st
    /\ ((exists e, rp = Throw e /\ run = (Throw e, stp))
        \/ (exists out,
              rp = Ok out /\ match_duration out = None
              /\ run = (Throw (Err "Could not extract duration from audio file"), stp))
        \/ (exists out m,
              rp = Ok out /\ match_duration out = Some m
              /\ plan_segments fuel (total_duration m) (segmentLength p) (overlap p)
                 = None
              /\ run = (Diverge, stp))
        \/ (exists out m segments,
              rp = Ok out /\ match_duration out = Some m
              /\ plan_segments fuel (total_duration m) (segmentLength p) (overlap p)
                 = Some segments
              /\ run = emit_plan env unlink_error itemIndex binaryData p
                         tempInputPath fileExtension (total_duration m) segments stp)).
Proof.
  intros probe run. unfold run, probe_and_plan, bind. fold probe.
  destruct (execAsync_spec probe st)
    as (rp & stp & ok & lf & H & Ht & Hr & _ & Hd & _).
  exists rp, stp, ok, lf. rewrite H.
  split; [reflexivity|]. split; [exact Ht|]. split; [exact Hr|].
  destruct rp as [out | e |]; [| left; eauto | congruence].
  right. destruct (match_duration out) as [m|] eqn:Em.
  - right. unfold plan.
    destruct (plan_segments fuel (total_duration m) (segmentLength p) (overlap p))
      as [segments|] eqn:Ep.
    + right. exists out, m, segments. auto.
    + left. exists out, m. auto.
  - left. exists out. auto.
Qed.

(** The shape of the calls of lines 173-260, when they finish. *)
Lemma probe_and_plan_shape (fuel itemIndex : nat) (binaryData : IBinaryData)
    (p : Params) (tempInputPath fileExtension : string) (st : State) :
  exists r st',
    probe_and_plan env unlink_error fuel itemIndex binaryData p
      tempInputPath fileExtension st = (r, st')
    /\ (forall e, r = Throw e -> returnData st' = returnData st)
    /\ (r = Ok tt ->
        exists o, returnData st' = (returnData st ++ [o])%list
                  /\ pairedItem o = itemIndex)
    /\ (r = Diverge -> returnData st' = returnData st)
    /\ (r <> Diverge ->
        exists body deletions,
          record_shape unlink_error st st' body deletions (allocations body)
          /\ reads_follow body = true).
Proof.
  destruct (probe_and_plan_cases fuel itemIndex binaryData p tempInputPath
              fileExtension st)
    as (rp & stp & ok & lf & _ & Ht & Hr & Hcases).
  set (probe := ProbeCmd (FFMPEG_PATH env) tempInputPath) in *.
  assert (Hfail : forall r, r <> Ok tt ->
            exists body deletions,
              record_shape unlink_error st stp body deletions (allocations body)
              /\ reads_follow body = true).
  { intros r _. exists [EvExec probe ok lf], []. split; [|reflexivity].
    unfold record_shape. rewrite Ht. simpl.
    repeat split; try constructor; try reflexivity; try contradiction.
    - constructor.
    - intros _. exists (files stp). reflexivity. }
  destruct Hcases as [(e & _ & Hrun) | [(out & _ & _ & Hrun)
                     | [(out & m & _ & _ & _ & Hrun)
                     | (out & m & segments & _ & _ & _ & Hrun)]]].
  - exists (Throw e), stp. split; [exact Hrun|].
    repeat split; try discriminate; try congruence.
    intros _. apply (Hfail (Throw e)). discriminate.
  - eexists _, stp. split; [exact Hrun|].
    repeat split; try discriminate; try congruence.
    intros _. apply (Hfail (Throw (Err ""))). discriminate.
  - exists Diverge, stp. split; [exact Hrun|].
    repeat split; try discriminate; try congruence.
  - destruct (emit_plan_spec itemIndex binaryData p tempInputPath fileExtension
                (total_duration m) segments stp)
      as (r & st' & body & dels & He & Hd & Hs & Hrf & _ & _ & _ & Hthrow & Hok).
    exists r, st'. split; [congruence|].
    split; [intros e He'; rewrite (Hthrow e He'); exact Hr|].
    split.
    { intro Hr'. destruct (Hok Hr') as (bin & Hrd & _).
      eexists. rewrite Hrd, Hr. split; reflexivity. }
    split; [congruence|].
    intros _. exists (EvExec probe ok lf :: body), dels.
    destruct Hs as (Hs1 & Hs2 & Hs3 & Hs4 & Hs5).
    split; [|exact Hrf].
    unfold record_shape. rewrite Hs1, Ht, <- app_assoc. simpl.
    repeat split; try assumption.
    constructor; [reflexivity | assumption].
Qed.

Lemma writeFile_spec (path : string) (buffer : Buffer) (st : State) :
  exists r st' ok,
    writeFile env path buffer st = (r, st')
    /\ trace st' = (trace st ++ [EvWriteFile path ok])%list
    /\ returnData st' = returnData st
    /\ ((ok = false /\ exists e, r = Throw e) \/ (ok = true /\ r = Ok tt)).
Proof.
  unfold writeFile. destruct (writeFile_error env (trace st) path).
  - do 3 eexists. split; [reflexivity|]. simpl. repeat split. left. eauto.
  - do 3 eexists. split; [reflexivity|]. simpl. repeat split. right. eauto.
Qed.

Lemma map_unlinked_snoc (deletions : list Event) (paths : list string)
    (path : string) (ok : bool) :
  map unlinked deletions = map Some paths ->
  map unlinked (deletions ++ [EvUnlink path ok]) = map Some (paths ++ [path]).
Proof. intro H. rewrite !map_app, H. reflexivity. Qed.

(** Lines 164-263: Calculate Segments on one record. *)
Lemma calculateSegments_summary (fuel itemIndex : nat) (binaryData : IBinaryData)
    (buffer : Buffer) (p : Params) (st : State) :
  exists r st',
    calculateSegments env unlink_error fuel itemIndex binaryData buffer p st
    = (r, st')
    /\ (forall e, r = Throw e -> returnData st' = returnData st)
    /\ (r = Diverge -> returnData st' = returnData st)
    /\ (r = Ok tt ->
        exists o, returnData st' = (returnData st ++ [o])%list
                  /\ pairedItem o = itemIndex)
    /\ (r <> Diverge ->
        exists body deletions paths,
          record_shape unlink_error st st' body deletions paths
          /\ reads_follow body = true).
Proof.
  unfold calculateSegments, bind, Date_now_call.
  set (ext := or_default (fileExtension binaryData) "m4a").
  set (tin := join (tmpdir env) _).
  set (st0 := {| clock := S (clock st); files := files st; trace := trace st;
                 returnData := returnData st |}).
  destruct (writeFile_spec tin buffer st0)
    as (rw & stw & okw & Hw & Htw & Hrw & Hcase).
  rewrite Hw. simpl in Htw, Hrw.
  destruct Hcase as [[-> [e ->]] | [-> ->]].
  - exists (Throw e), stw. split; [reflexivity|].
    repeat split; try discriminate; try congruence.
    intros _. exists [EvWriteFile tin false], [], [].
    split; [|reflexivity].
    unfold record_shape. rewrite Htw. simpl.
    repeat split; try constructor; try reflexivity; try contradiction.
    + constructor.
    + intros _. exists (files stw). reflexivity.
  - match goal with
    | |- context [try_finally ?b ?c stw] =>
        destruct (try_finally_quiet b c stw) as (r & stb & st' & Hb & Htf & Hdiv & Hc)
    end.
    { intro s0. destruct (unlink_quiet_spec tin s0) as (s' & ? & H & _). eauto. }
    destruct (probe_and_plan_shape fuel itemIndex binaryData p tin ext stw)
      as (r' & stb' & Hb' & Hthrow & Hok & Hdv & Hshape).
    rewrite Hb in Hb'. injection Hb' as <- <-.
    exists r, st'. split; [exact Htf|].
    destruct (unlink_quiet_spec tin stb) as (s' & ok & Hu & Htu & Hru & _ & Hfu).
    assert (Hrd : returnData st' = returnData stb).
    { destruct r; [rewrite Hc in Hu by discriminate; congruence
                  | rewrite Hc in Hu by discriminate; congruence
                  | now rewrite Hdiv]. }
    split; [intros e He; rewrite Hrd, (Hthrow e He); exact Hrw|].
    split; [intros He; rewrite Hrd, (Hdv He); exact Hrw|].
    split.
    { intro He. destruct (Hok He) as (o & Ho & Hp). exists o.
      rewrite Hrd, Ho, Hrw. split; [reflexivity | exact Hp]. }
    intro Hd. rewrite (Hc Hd) in Hu. injection Hu as <-.
    destruct (Hshape Hd) as (body & dels & (Hs1 & Hs2 & Hs3 & Hs4 & Hs5) & Hrf).
    exists (EvWriteFile tin true :: body), (dels ++ [EvUnlink tin ok])%list,
      (allocations body ++ [tin])%list.
    split; [|exact Hrf].
    unfold record_shape.
    split; [rewrite Htu, Hs1, Htw, <- !app_assoc; reflexivity|].
    split; [constructor; [reflexivity | assumption]|].
    split; [now apply map_unlinked_snoc|].
    split.
    { simpl. intros q [<- | Hq]; apply in_or_app; [right; now left | now left]. }
    intro Hn. destruct (Hs5 Hn) as [before Hbefore].
    exists before. rewrite (Hfu Hn), Hbefore, after_deletions_app. reflexivity.
Qed.

(** Lines 265-320: Extract Segment on one record. *)
Lemma extractSegment_summary (itemIndex : nat) (binaryData : IBinaryData)
    (buffer : Buffer) (p : Params) (st : State) :
  exists r st',
    extractSegment env unlink_error itemIndex binaryData buffer p st = (r, st')
    /\ (forall e, r = Throw e -> returnData st' = returnData st)
    /\ (r = Diverge -> returnData st' = returnData st)
    /\ (r = Ok tt ->
        exists o, returnData st' = (returnData st ++ [o])%list
                  /\ pairedItem o = itemIndex)
    /\ (r <> Diverge ->
        exists body deletions paths,
          record_shape unlink_error st st' body deletions paths
          /\ reads_follow body = true).
Proof.
  unfold extractSegment.
  destruct (leb (endTime p) (startTime p)).
  { exists (Throw (Err "End time must be greater than start time")), st.
    split; [reflexivity|]. repeat split; try discriminate.
    intros _. exists [], [], []. split; [|reflexivity].
    unfold record_shape. simpl. rewrite app_nil_r.
    repeat split; try constructor; try contradiction.
    intros _. exists (files st). reflexivity. }
  unfold bind at 1 2. unfold Date_now_call.
  set (ext := or_default (fileExtension binaryData) "m4a").
  set (tin := join (tmpdir env) _). set (tout := join (tmpdir env) _).
  set (st0 := {| clock := S (S (clock st)); files := files st; trace := trace st;
                 returnData := returnData st |}).
  unfold bind at 1.
  destruct (writeFile_spec tin buffer st0)
    as (rw & stw & okw & Hw & Htw & Hrw & Hcase).
  simpl. simpl in Hw. fold st0. rewrite Hw. simpl in Htw, Hrw.
  destruct Hcase as [[-> [e ->]] | [-> ->]].
  { exists (Throw e), stw. split; [reflexivity|].
    repeat split; try discriminate; try congruence.
    intros _. exists [EvWriteFile tin false], [], [].
    split; [|reflexivity].
    unfold record_shape. rewrite Htw. simpl.
    repeat split; try constructor; try reflexivity; try contradiction.
    + constructor.
    + intros _. exists (files stw). reflexivity. }
  set (cmd := ExtractCmd (FFMPEG_PATH env) tin (startTime p)
                (endTime p - startTime p)%Q tout).
  match goal with
  | |- context [try_finally ?b ?c stw] =>
      destruct (try_finally_quiet b c stw) as (r & stb & st' & Hb & Htf & Hdiv & Hc)
  end.
  { intro s0. unfold bind.
    destruct (unlink_quiet_spec tin s0) as (s1 & ? & H1 & _). rewrite H1.
    destruct (unlink_quiet_spec tout s1) as (s2 & ? & H2 & _). eauto. }
  exists r, st'. split; [exact Htf|].
  (* the body: the extraction, the read, the push *)
  assert (Hbody : r <> Diverge
            /\ exists body,
                 trace stb = (trace stw ++ body)%list
                 /\ Forall (fun e => is_unlink e = false) body
                 /\ (forall q, In q (allocations body) -> q = tout)
                 /\ reads_follow body = true
                 /\ (forall e, r = Throw e -> returnData stb = returnData stw)
                 /\ (r = Ok tt ->
                     exists o, returnData stb = (returnData stw ++ [o])%list
                               /\ pairedItem o = itemIndex)).
  { unfold extract_body, bind in Hb. fold cmd in Hb.
    destruct (execAsync_spec cmd stw)
      as (r1 & st1 & ok & lf & H1 & Ht1 & Hr1 & _ & Hd1 & Hok).
    rewrite H1 in Hb. destruct r1 as [out | e |]; [| |congruence].
    - assert (ok = true) by (apply Hok; eauto). subst ok.
      destruct (readFile_spec tout st1)
        as (r2 & st2 & ok2 & H2 & Ht2 & Hr2 & _ & _ & Hd2).
      rewrite H2 in Hb. destruct r2 as [buf | e |]; [| |congruence].
      + unfold await, ret, throw, push in Hb.
        destruct (prepareBinaryData env buf _ (mimeType binaryData));
          injection Hb as <- <-; (split; [discriminate|]);
          exists [EvExec cmd true lf; EvReadFile tout ok2]; simpl;
          rewrite Ht2, Ht1, <- app_assoc, String.eqb_refl.
        * repeat split; try discriminate; try congruence.
          -- repeat constructor.
          -- intros q [<- | []]. reflexivity.
        * repeat split; try discriminate.
          -- repeat constructor.
          -- intros q [<- | []]. reflexivity.
          -- intros _. eexists. rewrite Hr2, Hr1. split; reflexivity.
      + injection Hb as <- <-. split; [discriminate|].
        exists [EvExec cmd true lf; EvReadFile tout ok2]. simpl.
        rewrite Ht2, Ht1, <- app_assoc, String.eqb_refl.
        repeat split; try discriminate; try congruence.
        * repeat constructor.
        * intros q [<- | []]. reflexivity.
    - assert (ok = false).
      { destruct ok; [|reflexivity]. destruct Hok as [Hok _].
        destruct (Hok eq_refl). discriminate. }
      subst ok. injection Hb as <- <-. split; [discriminate|].
      exists [EvExec cmd false lf]. rewrite Ht1.
      repeat split; try discriminate; try congruence.
      + repeat constructor.
      + simpl. intros q [<- | []]. reflexivity. }
  destruct Hbody as (Hd & body & Htb & Hnu & Hal & Hrf & Hthrow & Hok).
  specialize (Hc Hd). unfold bind in Hc.
  destruct (unlink_quiet_spec tin stb) as (s1 & ok1 & H1 & Ht1 & Hr1 & _ & Hf1).
  rewrite H1 in Hc.
  destruct (unlink_quiet_spec tout s1) as (s2 & ok2 & H2 & Ht2 & Hr2 & _ & Hf2).
  rewrite H2 in Hc. injection Hc as <-.
  split; [intros e He; rewrite Hr2, Hr1, (Hthrow e He); exact Hrw|].
  split; [congruence|].
  split.
  { intro He. destruct (Hok He) as (o & Ho & Hp). exists o.
    rewrite Hr2, Hr1, Ho, Hrw. split; [reflexivity | exact Hp]. }
  intros _.
  exists (EvWriteFile tin true :: body), [EvUnlink tin ok1; EvUnlink tout ok2],
    [tin; tout].
  split; [|exact Hrf].
  unfold record_shape.
  split; [rewrite Ht2, Ht1, Htb, Htw, <- !app_assoc; reflexivity|].
  split; [constructor; [reflexivity | assumption]|].
  split; [reflexivity|].
  split.
  { simpl. intros q [<- | Hq]; [now left | right; left; symmetry; now apply Hal]. }
  intro Hn. exists (files stb). rewrite (Hf2 Hn), (Hf1 Hn). reflexivity.
Qed.

(** Lines 159-321: the processing of one record. *)
Lemma process_item_summary (fuel itemIndex : nat) (it : Item) (st : State) :
  exists r st',
    process_item env unlink_error fuel itemIndex it st = (r, st')
    /\ record_summary env unlink_error itemIndex st r st'.
Proof.
  unfold process_item, assertBinaryData, getBinaryDataBuffer, bind.
  destruct (lookup (binaryPropertyName (params it)) (item_binary it)) as [b|].
  - unfold ret, record_summary, known_operation.
    destruct (operation env =? "calculateSegments") eqn:E1.
    + destruct (calculateSegments_summary fuel itemIndex b (data b) (params it) st)
        as (r & st' & H & H1 & H2 & H3 & H4).
      exists r, st'. simpl. auto.
    + destruct (operation env =? "extractSegment") eqn:E2.
      * destruct (extractSegment_summary itemIndex b (data b) (params it) st)
          as (r & st' & H & H1 & H2 & H3 & H4).
        exists r, st'. simpl. auto.
      * exists (Ok tt), st. simpl. split; [reflexivity|].
        repeat split; try discriminate.
        intros _. exists [], [], []. split; [|reflexivity].
        unfold record_shape. simpl. rewrite app_nil_r.
        repeat split; try constructor; try contradiction.
        intros _. exists (files st). reflexivity.
  - unfold throw. eexists _, st. split; [reflexivity|].
    unfold record_summary. repeat split; try discriminate.
    intros _. exists [], [], []. split; [|reflexivity].
    unfold record_shape. simpl. rewrite app_nil_r.
    repeat split; try constructor; try contradiction.
    intros _. exists (files st). reflexivity.
Qed.



End Calls.

(** ** Deletion failures do not reach the result *)




Section Independence.
Variable env : Env.
Variables u1 u2 : list Event -> string -> option Error.




End Independence.

(** ** The batch extraction of a finished plan *)

Lemma extractions_of_deletions (deletions : list Event) (paths : list string) :
  map unlinked deletions = map Some paths -> extractions deletions = [].
Proof.
  revert paths. induction deletions as [|e dels IH]; intros paths H;
    [reflexivity|].
  destruct paths as [|q paths]; [discriminate|].
  simpl in H. injection H as He H.
  destruct e; try discriminate. simpl. eauto.
Qed.

(** What the planner reports: segment [k] holds the two-decimal roundings
    of the [k]-th [currentStart] and [currentEnd]. *)
Lemma plan_segments_rounded (fuel : nat)
    (totalDuration segmentLength overlap : number) (segments : list Segment) :
  plan_segments fuel totalDuration segmentLength overlap = Some segments ->
  forall k seg,
    nth_error segments k = Some seg ->
    let raw :=
      raw_segment totalDuration segmentLength (segmentLength - overlap) k in
    index seg = k
    /\ start seg == toFixed2 (start raw)
    /\ end_ seg == toFixed2 (end_ raw).
Proof.
  intros H k seg Hk. unfold plan_segments in H.
  apply PlannerFacts.plan_loop_some in H.
  destruct H as (n & -> & _). simpl in Hk.
  apply PlannerFacts.nth_error_map_seq in Hk. destruct Hk as [_ ->].
  unfold push_segment, raw_segment. cbn [index start end_].
  assert (E : advance (segmentLength - overlap) k 0
              == inject_Z (Z.of_nat k) * (segmentLength - overlap)).
  { rewrite PlannerFacts.advance_value. ring. }
  split; [reflexivity|]. now rewrite E.
Qed.

Section Batch.
Variable env : Env.
Variable unlink_error : list Event -> string -> option Error.

(** Calculate Segments with [outputSegments] set, when it returns: the plan
    it pushes is the planner's, and the extraction commands it has issued
    are one per segment of that plan, in order. *)
Lemma calculateSegments_batch (fuel itemIndex : nat) (binaryData : IBinaryData)
    (buffer : Buffer) (p : Params) (st st' : State) :
  calculateSegments env unlink_error fuel itemIndex binaryData buffer p st
  = (Ok tt, st') ->
  outputSegments p = Some true ->
  exists out m segments bin tempInputPath added,
    match_duration out = Some m
    /\ plan_segments fuel (total_duration m) (segmentLength p) (overlap p)
       = Some segments
    /\ returnData st'
       = (returnData st
          ++ [ {| json := JPlan (total_duration m) (segmentLength p) (overlap p)
                            (List.length segments) segments;
                  binary := Some bin; pairedItem := itemIndex |} ])%list
    /\ trace st' = (trace st ++ added)%list
    /\ Forall2 (issued_for env tempInputPath) (extractions added) segments.
Proof.
  unfold calculateSegments, bind, Date_now_call.
  set (ext := or_default (fileExtension binaryData) "m4a").
  set (tin := join (tmpdir env) _).
  set (st0 := {| clock := S (clock st); files := files st; trace := trace st;
                 returnData := returnData st |}).
  destruct (writeFile_spec env tin buffer st0)
    as (rw & stw & okw & Hw & Htw & Hrw & Hcase).
  rewrite Hw. simpl in Htw, Hrw.
  destruct Hcase as [[-> [e ->]] | [-> ->]]; [discriminate|].
  match goal with
  | |- context [try_finally ?b ?c stw] =>
      destruct (try_finally_quiet b c stw) as (r & mid & st2 & Hb & Htf & _ & Hc)
  end.
  { intro s0. destruct (unlink_quiet_spec unlink_error tin s0) as (s' & ? & H & _).
    eauto. }
  rewrite Htf. intros H Hout. injection H as -> ->.
  destruct (probe_and_plan_cases env unlink_error fuel itemIndex binaryData p
              tin ext stw)
    as (rp & stp & okp & lfp & _ & Htp & Hrp & Hcases).
  rewrite Hb in Hcases.
  destruct Hcases as [(e & _ & Hrun) | [(out & _ & _ & Hrun)
                     | [(out & m & _ & _ & _ & Hrun)
                     | (out & m & segments & _ & Hm & Hplan & Hrun)]]];
    try discriminate.
  destruct (emit_plan_spec env unlink_error itemIndex binaryData p tin ext
              (total_duration m) segments stp)
    as (r & st3 & body & dels & He & _ & Hs & _ & Hcmd & Hlen & _ & _ & Hok).
  rewrite <- Hrun in He. injection He as <- <-.
  destruct (Hok eq_refl) as (bin & Hrd & Hbin).
  destruct bin as [bin|]; [|destruct Hbin as [Hbin _]; now destruct (Hbin eq_refl)].
  rewrite (Hlen Hout eq_refl), firstn_all in Hcmd.
  destruct Hs as (Hs1 & _ & Hs3 & _).
  destruct (unlink_quiet_spec unlink_error tin mid) as (s' & ok & Hu & Htu & Hru & _).
  rewrite Hc in Hu by discriminate. injection Hu as <-.
  exists out, m, segments, bin, tin,
    ([EvWriteFile tin true; EvExec (ProbeCmd (FFMPEG_PATH env) tin) okp lfp]
       ++ body ++ dels ++ [EvUnlink tin ok])%list.
  split; [exact Hm|]. split; [exact Hplan|].
  split; [rewrite Hru, Hrd, Hrp, Hrw; reflexivity|].
  split.
  { rewrite Htu, Hs1, Htp, Htw. rewrite <- !app_assoc. reflexivity. }
  simpl. rewrite !extractions_app, (extractions_of_deletions _ _ Hs3).
  simpl. now rewrite app_nil_r.
Qed.

End Batch.

End NodeFacts.

(** ** Termination *)

Module TerminationFacts.
Import Num Planner Text Node Trace NumFacts PlannerFacts ProbeFacts NodeFacts.
Local Open Scope string_scope.


Section Finishes.
Variable env : Env.
Variable unlink_error : list Event -> string -> option Error.




End Finishes.

End TerminationFacts.

(** ** The operations on one record *)

Module RecordClaims.
Import Num Planner Text Node Trace Fixture NumFacts PlannerFacts NodeFacts.
Local Open Scope string_scope.

(** C3, on the code: there is no check of overlap against segmentLength.
    With a probed duration of 95 s, segmentLength = 30 and overlap = 30 the
    loop of the planner never ends, whatever the fuel, and the processing of
    the record neither returns nor throws, with or without continue-on-fail. *)
Theorem C3_equal_overlap_never_ends :
  let item := item_of (Some "talk.m4a") (plan_params (30 # 1) (30 # 1) false) in
  let banner := "  Duration: 00:01:35.00, start: 0.000000, bitrate: 64 kb/s" in
  forall (fuel : nat) (recover : bool),
    plan_segments fuel (95 # 1) (30 # 1) (30 # 1) = None
    /\ fst (execute (env_of "calculateSegments" recover (engine_ok banner))
              never_fails fuel [item] empty_state)
       = Diverge.
Proof.
  intros item banner fuel recover.
  assert (Hspin : forall T, T == 95 # 1 ->
            plan_segments fuel T (30 # 1) (30 # 1) = None).
  { intros T HT. unfold plan_segments. apply plan_loop_spins.
    - discriminate.
    - rewrite HT. reflexivity. }
  split; [apply Hspin; reflexivity|].
  cbv -[plan_segments].
  rewrite Hspin by reflexivity.
  reflexivity.
Qed.

(** The planner on a duration that is not positive: the loop body never
    runs. *)
Lemma plan_segments_empty (fuel : nat) (totalDuration segmentLength overlap : number) :
  (0 < fuel)%nat -> totalDuration <= 0 ->
  plan_segments fuel totalDuration segmentLength overlap = Some [].
Proof.
  intros Hf Ht. destruct fuel as [|fuel]; [lia|].
  unfold plan_segments. simpl.
  apply ltb_false in Ht. now rewrite Ht.
Qed.

(** C4, as stated, fails: a record whose probe prints a duration of
    00:00:00.00 is not rejected; the operation returns and pushes a plan with
    no segment. *)
Lemma C4_zero_duration_is_not_rejected :
  let item := item_of (Some "talk.m4a") (plan_params (30 # 1) 0 false) in
  let banner := "  Duration: 00:00:00.00, start: 0.000000, bitrate: 64 kb/s" in
  let run := process_item (env_of "calculateSegments" false (engine_ok banner))
               never_fails 1 0 item empty_state in
  fst run = Ok tt
  /\ returnData (snd run)
     = [ {| json := JPlan (0 # 100) (30 # 1) 0 0 []; binary := None;
            pairedItem := 0 |} ].
Proof. vm_compute. split; reflexivity. Qed.

(** C4, amended: when the probe succeeds and the duration it prints is not
    positive, the rest of Calculate Segments does not fail on that account:
    it makes no further call to the engine, and it pushes a summary with
    segmentCount 0 and no segment, with an empty binary map when
    outputSegments is set and without binary field otherwise. *)
Theorem C4_empty_plan_is_returned (env : Env)
    (unlink_error : list Event -> string -> option Error)
    (fuel itemIndex : nat) (binaryData : IBinaryData) (p : Params)
    (tempInputPath fileExtension : string) (st stp : State)
    (out : string) (durationMatch : string * string * string) :
  (0 < fuel)%nat ->
  execAsync env (ProbeCmd (FFMPEG_PATH env) tempInputPath) st = (Ok out, stp) ->
  match_duration out = Some durationMatch ->
  total_duration durationMatch <= 0 ->
  exists st',
    probe_and_plan env unlink_error fuel itemIndex binaryData p
      tempInputPath fileExtension st = (Ok tt, st')
    /\ trace st' = trace stp
    /\ returnData st'
       = (returnData stp
          ++ [ {| json := JPlan (total_duration durationMatch) (segmentLength p)
                            (overlap p) 0 [];
                  binary := if match outputSegments p with
                               | Some b => b
                               | None => false
                               end
                            then Some [] else None;
                  pairedItem := itemIndex |} ])%list.
Proof.
  intros Hf Hprobe Hmatch Hle.
  unfold probe_and_plan, bind. rewrite Hprobe, Hmatch.
  unfold plan. rewrite (plan_segments_empty fuel _ _ _ Hf Hle).
  unfold emit_plan.
  destruct (match outputSegments p with Some b => b | None => false end).
  - simpl. eexists. split; [reflexivity|]. split; reflexivity.
  - simpl. eexists. split; [reflexivity|]. split; reflexivity.
Qed.

(** The amended C4 on a probe that prints 00:00:00.00, with outputSegments
    set. *)
Lemma C4_empty_plan_is_returned_witness :
  let env := env_of "calculateSegments" false
               (engine_ok "  Duration: 00:00:00.00, start: 0.000000") in
  let p := plan_params (30 # 1) 0 true in
  exists st',
    probe_and_plan env never_fails 1 0 (payload None) p "/tmp/input_1_0.m4a" "m4a"
      empty_state = (Ok tt, st')
    /\ trace st' = [EvExec (ProbeCmd "/opt/ffmpeg" "/tmp/input_1_0.m4a") true false]
    /\ returnData st'
       = [ {| json := JPlan (total_duration ("00", "00", "00.00")) (30 # 1) 0 0 [];
              binary := Some []; pairedItem := 0 |} ].
Proof.
  intros env p.
  apply (C4_empty_plan_is_returned env never_fails 1 0 (payload None) p
           "/tmp/input_1_0.m4a" "m4a" empty_state
           {| clock := 0; files := [];
              trace := [EvExec (ProbeCmd "/opt/ffmpeg" "/tmp/input_1_0.m4a")
                          true false];
              returnData := [] |}
           "  Duration: 00:00:00.00, start: 0.000000" ("00", "00", "00.00")).
  - lia.
  - reflexivity.
  - reflexivity.
  - vm_compute. discriminate.
Defined.

(** C5: Extract Segment with endTime <= startTime throws before anything
    else happens: the state is the one before the record (no call to the
    engine, no file written, no path allocated), and the error is the one of
    the time-range check whenever the record has its binary payload. *)
Theorem C5_invalid_time_range (env : Env)
    (unlink_error : list Event -> string -> option Error)
    (fuel itemIndex : nat) (it : Item) (st : State) :
  operation env = "extractSegment" ->
  endTime (params it) <= startTime (params it) ->
  exists e,
    process_item env unlink_error fuel itemIndex it st = (Throw e, st)
    /\ (forall b,
          lookup (binaryPropertyName (params it)) (item_binary it) = Some b ->
          e = Err "End time must be greater than start time").
Proof.
  intros Hop Hle.
  unfold process_item, assertBinaryData, getBinaryDataBuffer, bind.
  destruct (lookup (binaryPropertyName (params it)) (item_binary it)) as [b|].
  - unfold ret. rewrite Hop. simpl String.eqb. cbv iota.
    unfold extractSegment. apply leb_true in Hle. rewrite Hle.
    eexists. split; [reflexivity|]. reflexivity.
  - unfold throw. eexists. split; [reflexivity|]. discriminate.
Qed.

(** C5 at Scenario C: startTime = 10 and endTime = 10. *)
Lemma C5_invalid_time_range_witness :
  exists e,
    process_item (env_of "extractSegment" false (engine_ok one_second))
      never_fails 1 0
      (item_of (Some "talk.m4a") (range_params (10 # 1) (10 # 1) None))
      empty_state
    = (Throw e, empty_state)
    /\ (forall b,
          lookup "data" [("data", payload (Some "talk.m4a"))] = Some b ->
          e = Err "End time must be greater than start time").
Proof.
  apply (C5_invalid_time_range
           (env_of "extractSegment" false (engine_ok one_second)) never_fails 1 0
           (item_of (Some "talk.m4a") (range_params (10 # 1) (10 # 1) None))
           empty_state).
  - reflexivity.
  - vm_compute. discriminate.
Defined.


(** The name reaches the payload: an extraction of [10, 12.5) from a payload
    without file name, with an empty Custom Filename. *)
Example extract_names_the_payload :
  returnData
    (snd (process_item (env_of "extractSegment" false (engine_ok one_second))
            never_fails 1 0
            (item_of None (range_params (10 # 1) (125 # 10) (Some "")))
            empty_state))
  = [ {| json := JExtract (10 # 1) (125 # 10) ((125 # 10) - (10 # 1));
         binary := Some [("data",
                          {| fileName := Some "audio_10_12.5.m4a";
                             fileExtension := None;
                             mimeType := "audio/mp4";
                             data := [Byte.x2a] |})];
         pairedItem := 0 |} ].
Proof. vm_compute. reflexivity. Qed.

(** C9, as stated, fails: for a probed duration of 1 s, segmentLength =
    0.125 and overlap = 0 the loop's segment 1 is [0.125, 0.25], and the
    engine is called for it with the offset 0.13 and the duration 0.12, the
    values computed from the rounded boundaries. *)
Lemma C9_extraction_does_not_use_full_precision :
  let env := env_of "calculateSegments" false (engine_ok one_second) in
  let item := item_of (Some "talk.m4a") (plan_params (1 # 8) 0 true) in
  let st' := snd (process_item env never_fails 9 0 item empty_state) in
  let raw := raw_segment (1 # 1) (1 # 8) ((1 # 8) - 0) 1 in
  let ss := 13 # 100 in
  let t := 1200 # 10000 in
  nth_error (extractions (trace st')) 1
  = Some (ExtractCmd "/opt/ffmpeg" "/tmp/input_1700000000000_0.m4a" ss t
            "/tmp/output_1700000000002_0_1.m4a")
  /\ ~ (ss == start raw)
  /\ ~ (t == end_ raw - start raw).
Proof.
  split; [vm_compute; reflexivity|].
  split; intro H; vm_compute in H; discriminate.
Qed.

(** C9, amended: when Calculate Segments with outputSegments returns, every
    start and end of the plan it reports is the two-decimal rounding of the
    loop's [currentStart] and [currentEnd], and the engine is called once per
    segment, in order, with that reported start as the offset and the
    difference of the reported end and start as the duration. *)
Theorem C9_extraction_uses_reported_boundaries (env : Env)
    (unlink_error : list Event -> string -> option Error)
    (fuel itemIndex : nat) (it : Item) (st st' : State) :
  operation env = "calculateSegments" ->
  outputSegments (params it) = Some true ->
  process_item env unlink_error fuel itemIndex it st = (Ok tt, st') ->
  exists totalDuration segments bin tempInputPath added,
    returnData st'
    = (returnData st
       ++ [ {| json := JPlan totalDuration (segmentLength (params it))
                         (overlap (params it)) (List.length segments) segments;
               binary := Some bin; pairedItem := itemIndex |} ])%list
    /\ trace st' = (trace st ++ added)%list
    /\ (forall k seg,
          nth_error segments k = Some seg ->
          let raw :=
            raw_segment totalDuration (segmentLength (params it))
              (segmentLength (params it) - overlap (params it)) k in
          is_hundredths (start seg) /\ is_hundredths (end_ seg)
          /\ start seg == toFixed2 (start raw)
          /\ end_ seg == toFixed2 (end_ raw))
    /\ Forall2 (issued_for env tempInputPath) (extractions added) segments.
Proof.
  intros Hop Hout.
  unfold process_item, assertBinaryData, getBinaryDataBuffer, bind.
  destruct (lookup (binaryPropertyName (params it)) (item_binary it)) as [b|];
    [|discriminate].
  unfold ret. rewrite Hop. simpl String.eqb. cbv iota.
  intro H.
  destruct (calculateSegments_batch env unlink_error fuel itemIndex b (data b)
              (params it) st st' H Hout)
    as (out & m & segments & bin & tin & added & _ & Hplan & Hrd & Ht & Hcmd).
  exists (total_duration m), segments, bin, tin, added.
  split; [exact Hrd|]. split; [exact Ht|]. split; [|exact Hcmd].
  intros k seg Hk.
  destruct (plan_segments_rounded fuel _ _ _ _ Hplan k seg Hk) as (_ & Hs & He).
  cbv zeta in *.
  split; [rewrite Hs; apply toFixed2_hundredths|].
  split; [rewrite He; apply toFixed2_hundredths|].
  split; assumption.
Qed.

(** The amended C9 on one second in segments of 0.125 s. *)
Lemma C9_extraction_uses_reported_boundaries_witness :
  let env := env_of "calculateSegments" false (engine_ok one_second) in
  let item := item_of (Some "talk.m4a") (plan_params (1 # 8) 0 true) in
  let st' := snd (process_item env never_fails 9 0 item empty_state) in
  exists totalDuration segments bin tempInputPath added,
    returnData st'
    = ([] ++ [ {| json := JPlan totalDuration (1 # 8) 0 (List.length segments)
                            segments;
                  binary := Some bin; pairedItem := 0 |} ])%list
    /\ trace st' = ([] ++ added)%list
    /\ (forall k seg,
          nth_error segments k = Some seg ->
          let raw := raw_segment totalDuration (1 # 8) ((1 # 8) - 0) k in
          is_hundredths (start seg) /\ is_hundredths (end_ seg)
          /\ start seg == toFixed2 (start raw)
          /\ end_ seg == toFixed2 (end_ raw))
    /\ Forall2 (issued_for env tempInputPath) (extractions added) segments.
Proof.
  intros env item st'.
  apply (C9_extraction_uses_reported_boundaries env never_fails 9 0 item
           empty_state st').
  - reflexivity.
  - reflexivity.
  - vm_compute. reflexivity.
Defined.





(** A trace in which each output is deleted before the next extraction
    starts passes the check that the trace of the batch loop fails. *)
Example interleaved_deletions_pass :
  let cmd := ExtractCmd "/opt/ffmpeg" "/tmp/in.m4a" 0 (1 # 2) in
  let tr := [ EvWriteFile "/tmp/in.m4a" true;
              EvExec (cmd "/tmp/out_0.m4a") true true;
              EvReadFile "/tmp/out_0.m4a" true;
              EvUnlink "/tmp/out_0.m4a" true;
              EvExec (cmd "/tmp/out_1.m4a") true true;
              EvReadFile "/tmp/out_1.m4a" true;
              EvUnlink "/tmp/out_1.m4a" true;
              EvUnlink "/tmp/in.m4a" true ] in
  deleted_before_next [] tr = true /\ peak_live [] tr = 2%nat.
Proof. vm_compute. split; reflexivity. Qed.

(** The input file is written before the [try] block: when the write itself
    fails the record throws the error of the write and no deletion is
    attempted. *)
Example failed_write_is_not_followed_by_a_deletion :
  let env := on_full_disk (env_of "extractSegment" false (engine_ok one_second)) in
  let item := item_of (Some "talk.m4a") (range_params (10 # 1) (20 # 1) None) in
  process_item env never_fails 1 0 item empty_state
  = (Throw (Err "ENOSPC: no space left on device, write"),
     {| clock := 2; files := [];
        trace := [EvWriteFile "/tmp/input_1700000000000_0.m4a" false];
        returnData := [] |}).
Proof. vm_compute. reflexivity. Qed.

(** A failing engine and failing deletions: the record reports the engine's
    error, and a deletion was attempted for both paths. *)
Example failed_extraction_is_cleaned_up :
  let env := env_of "extractSegment" false (engine_extract_fails one_second) in
  let item := item_of (Some "talk.m4a") (range_params (10 # 1) (20 # 1) None) in
  let run := process_item env always_fails 1 0 item empty_state in
  fst run = Throw (Err "Command failed: ffmpeg")
  /\ map unlinked (trace (snd run))
     = [ None; None;
         Some "/tmp/input_1700000000000_0.m4a";
         Some "/tmp/output_1700000000001_0.m4a" ].
Proof. vm_compute. split; reflexivity. Qed.

End RecordClaims.

(** ** The record loop *)

Module RunClaims.
Import Num Planner Text Node Trace Fixture NodeFacts.
Local Open Scope string_scope.

Section Loop.
Variable env : Env.
Variable unlink_error : list Event -> string -> option Error.
Variable fuel : nat.

(** The loop over [l1 ++ l2] is the loop over [l1], continued on [l2] when
    it returns. *)
Lemma execute_loop_app (l1 l2 : list Item) :
  forall (itemIndex : nat) (st : State),
    execute_loop env unlink_error fuel (l1 ++ l2) itemIndex st
    = match execute_loop env unlink_error fuel l1 itemIndex st with
      | (Ok _, st1) =>
          execute_loop env unlink_error fuel l2 (itemIndex + List.length l1) st1
      | (Throw e, st1) => (Throw e, st1)
      | (Diverge, st1) => (Diverge, st1)
      end.
Proof.
  induction l1 as [|it l1 IH]; intros i st.
  - simpl. unfold ret. now rewrite Nat.add_0_r.
  - simpl. unfold bind.
    destruct (try_catch _ _ st) as [[[] | e |] st1]; [|reflexivity|reflexivity].
    rewrite IH. now rewrite Nat.add_succ_r.
Qed.

(** One turn of the loop on a record that throws. *)
Lemma execute_loop_on_throw (it : Item) (rest : list Item) (itemIndex : nat)
    (st failed : State) (e : Error) :
  process_item env unlink_error fuel itemIndex it st = (Throw e, failed) ->
  execute_loop env unlink_error fuel (it :: rest) itemIndex st
  = if continueOnFail env
    then execute_loop env unlink_error fuel rest (S itemIndex)
           (snd (push {| json := JError (message e); binary := None;
                         pairedItem := itemIndex |} failed))
    else (Throw (NodeOperationError e itemIndex), failed).
Proof.
  intro H. simpl. unfold bind, try_catch. rewrite H.
  unfold on_error. destruct (continueOnFail env); reflexivity.
Qed.

(** With continue-on-fail the loop never throws, and when it returns it has
    pushed one record per input record, paired with it, in input order. *)
Lemma execute_loop_recovering (items : list Item) :
  continueOnFail env = true -> known_operation env = true ->
  forall (itemIndex : nat) (st : State),
  exists r st',
    execute_loop env unlink_error fuel items itemIndex st = (r, st')
    /\ (forall e, r <> Throw e)
    /\ (r = Ok tt ->
        exists outs,
          returnData st' = (returnData st ++ outs)%list
          /\ map pairedItem outs = seq itemIndex (List.length items)).
Proof.
  intros Hc Hk. induction items as [|it rest IH]; intros i st.
  - exists (Ok tt), st. split; [reflexivity|]. split; [discriminate|].
    intros _. exists []. now rewrite app_nil_r.
  - destruct (process_item_summary env unlink_error fuel i it st)
      as (r1 & st1 & H1 & Hthrow & _ & Hok & _).
    rewrite Hk in Hok.
    destruct r1 as [[] | e |].
    + destruct (Hok eq_refl) as (o & Ho & Hp).
      destruct (IH (S i) st1) as (r & st' & H & Hnt & Hrd).
      exists r, st'. simpl. unfold bind, try_catch. rewrite H1.
      split; [exact H|]. split; [exact Hnt|].
      intro Hr. destruct (Hrd Hr) as (outs & Houts & Hmap).
      exists (o :: outs). rewrite Houts, Ho, <- app_assoc. simpl.
      split; [reflexivity|]. now rewrite Hp, Hmap.
    + rewrite (execute_loop_on_throw it rest i st st1 e H1), Hc.
      set (record := {| json := JError (message e); binary := None;
                        pairedItem := i |}).
      destruct (IH (S i) (snd (push record st1))) as (r & st' & H & Hnt & Hrd).
      exists r, st'. split; [exact H|]. split; [exact Hnt|].
      intro Hr. destruct (Hrd Hr) as (outs & Houts & Hmap).
      exists (record :: outs). rewrite Houts. simpl.
      rewrite (Hthrow e eq_refl), <- app_assoc. simpl.
      split; [reflexivity|]. now rewrite Hmap.
    + exists Diverge, st1. simpl. unfold bind, try_catch. rewrite H1.
      split; [reflexivity|]. split; discriminate.
Qed.

End Loop.

(** C8: a record that throws has pushed nothing and has undone nothing of
    the records before it.  With continue-on-fail the loop pushes
    [{json: {error: message}, pairedItem: index}] without binary field for it
    and goes on with the next record; such a run never throws and, when it
    returns, holds one record per input record, paired with it and in input
    order.  Without continue-on-fail the loop throws the error wrapped with
    the position of the record, in the state the failing record left: no
    later record is processed, and the records pushed before are still in
    [returnData]. *)
Theorem C8_failing_record (env : Env)
    (unlink_error : list Event -> string -> option Error) (fuel : nat)
    (before : list Item) (it : Item) (after : list Item)
    (st mid failed : State) (e : Error) :
  execute_loop env unlink_error fuel before 0 st = (Ok tt, mid) ->
  process_item env unlink_error fuel (List.length before) it mid
  = (Throw e, failed) ->
  let itemIndex := List.length before in
  let record := {| json := JError (message e); binary := None;
                   pairedItem := itemIndex |} in
  returnData failed = returnData mid
  /\ (exists calls, trace failed = (trace mid ++ calls)%list)
  /\ (continueOnFail env = true ->
      exists recovered,
        push record failed = (Ok tt, recovered)
        /\ returnData recovered = (returnData mid ++ [record])%list
        /\ execute_loop env unlink_error fuel (before ++ it :: after) 0 st
           = execute_loop env unlink_error fuel after (S itemIndex) recovered
        /\ (known_operation env = true ->
            forall items st0,
            exists r st',
              execute_loop env unlink_error fuel items 0 st0 = (r, st')
              /\ (forall e', r <> Throw e')
              /\ (r = Ok tt ->
                  exists outs,
                    returnData st' = (returnData st0 ++ outs)%list
                    /\ map pairedItem outs = seq 0 (List.length items))))
  /\ (continueOnFail env = false ->
      execute_loop env unlink_error fuel (before ++ it :: after) 0 st
      = (Throw (NodeOperationError e itemIndex), failed)).
Proof.
  intros Hbefore Hfail itemIndex record.
  destruct (process_item_summary env unlink_error fuel itemIndex it mid)
    as (r & st' & H & Hthrow & _ & _ & Hshape).
  unfold itemIndex in H. rewrite Hfail in H. injection H as <- <-.
  split; [apply (Hthrow e eq_refl)|].
  split.
  { destruct Hshape as (body & dels & paths & (Ht & _) & _); [discriminate|].
    exists (body ++ dels)%list. exact Ht. }
  assert (Hloop :
    execute_loop env unlink_error fuel (before ++ it :: after) 0 st
    = if continueOnFail env
      then execute_loop env unlink_error fuel after (S itemIndex)
             (snd (push record failed))
      else (Throw (NodeOperationError e itemIndex), failed)).
  { rewrite execute_loop_app, Hbefore. simpl Nat.add.
    apply execute_loop_on_throw. exact Hfail. }
  split.
  - intro Hc. rewrite Hc in Hloop.
    exists (snd (push record failed)).
    split; [reflexivity|].
    split; [simpl; now rewrite (Hthrow e eq_refl)|].
    split; [exact Hloop|].
    intros Hk items st0.
    apply execute_loop_recovering; assumption.
  - intro Hc. now rewrite Hc in Hloop.
Qed.

(** C8 on three records of Extract Segment, the second with
    startTime = endTime = 10, in a run with continue-on-fail. *)
Lemma C8_failing_record_witness :
  let env := env_of "extractSegment" true (engine_ok one_second) in
  let good := item_of (Some "talk.m4a") (range_params (10 # 1) (20 # 1) None) in
  let bad := item_of (Some "talk.m4a") (range_params (10 # 1) (10 # 1) None) in
  let mid := snd (execute_loop env never_fails 1 [good] 0 empty_state) in
  let e := Err "End time must be greater than start time" in
  let record := {| json := JError (message e); binary := None; pairedItem := 1 |} in
  returnData mid = returnData mid
  /\ (exists calls, trace mid = (trace mid ++ calls)%list)
  /\ (continueOnFail env = true ->
      exists recovered,
        push record mid = (Ok tt, recovered)
        /\ returnData recovered = (returnData mid ++ [record])%list
        /\ execute_loop env never_fails 1 ([good] ++ bad :: [good]) 0 empty_state
           = execute_loop env never_fails 1 [good] 2 recovered
        /\ (known_operation env = true ->
            forall items st0,
            exists r st',
              execute_loop env never_fails 1 items 0 st0 = (r, st')
              /\ (forall e', r <> Throw e')
              /\ (r = Ok tt ->
                  exists outs,
                    returnData st' = (returnData st0 ++ outs)%list
                    /\ map pairedItem outs = seq 0 (List.length items))))
  /\ (continueOnFail env = false ->
      execute_loop env never_fails 1 ([good] ++ bad :: [good]) 0 empty_state
      = (Throw (NodeOperationError e 1), mid)).
Proof.
  intros env good bad mid e record.
  apply (C8_failing_record env never_fails 1 [good] bad [good]
           empty_state mid mid e).
  - vm_compute. reflexivity.
  - vm_compute. reflexivity.
Defined.

(** The same three records without continue-on-fail: the run stops at the
    second record, with the output of the first still in [returnData]. *)
Example run_stops_at_failing_record :
  let env := env_of "extractSegment" false (engine_ok one_second) in
  let good := item_of (Some "talk.m4a") (range_params (10 # 1) (20 # 1) None) in
  let bad := item_of (Some "talk.m4a") (range_params (10 # 1) (10 # 1) None) in
  let run := execute env never_fails 1 [good; bad; good] empty_state in
  fst run
  = Throw (NodeOperationError (Err "End time must be greater than start time") 1)
  /\ map pairedItem (returnData (snd run)) = [0%nat]
  /\ List.length (extractions (trace (snd run))) = 1%nat.
Proof. vm_compute. repeat split. Qed.

(** With continue-on-fail the same run returns three records, in order. *)
Example run_recovers_failing_record :
  let env := env_of "extractSegment" true (engine_ok one_second) in
  let good := item_of (Some "talk.m4a") (range_params (10 # 1) (20 # 1) None) in
  let bad := item_of (Some "talk.m4a") (range_params (10 # 1) (10 # 1) None) in
  match fst (execute env never_fails 1 [good; bad; good] empty_state) with
  | Ok [[first; second; third]] =>
      map pairedItem [first; second; third] = [0; 1; 2]%nat
      /\ json second = JError "End time must be greater than start time"
      /\ binary second = None
  | _ => False
  end.
Proof. vm_compute. repeat split. Qed.

End RunClaims.

(** ** More on the plan: rounding, coverage, gaps *)

Module PlannerExtras.
Import Num Planner NumFacts PlannerFacts NodeFacts.














Example plan_with_negative_overlap :
  plan_segments 4 (100 # 1) (30 # 1) (- (10 # 1))
  = Some [ {| index := 0; start := 0 # 100; end_ := 3000 # 100 |};
           {| index := 1; start := 4000 # 100; end_ := 7000 # 100 |};
           {| index := 2; start := 8000 # 100; end_ := 10000 # 100 |} ].
Proof. reflexivity. Qed.

End PlannerExtras.

(** ** More on the texts: the duration pattern, the extension pattern *)

Module TextExtras.
Import Num Text Reading NumFacts ProbeFacts.
Local Open Scope string_scope.






Lemma remove_ext_unfold (s : string) :
  remove_ext s
  = if ext_here s then EmptyString
    else match s with
         | EmptyString => EmptyString
         | String c s' => String c (remove_ext s')
         end.
Proof. destruct s; reflexivity. Qed.

Lemma no_slash_dot_with_dot (a b : string) :
  no_slash_dot (a ++ String "."%char b) = false.
Proof.
  induction a as [|c a IH]; simpl.
  - reflexivity.
  - rewrite IH. now rewrite andb_false_r.
Qed.

(** X3: the extension pattern removes exactly a final extension: for any
    base name (with full stops or slashes or not) and any non-empty
    extension without full stop and slash, [base.ext] becomes [base]. *)
Theorem X3_final_extension_is_removed (base ext : string) :
  ext <> "" -> no_slash_dot ext = true ->
  remove_ext (base ++ "." ++ ext) = base.
Proof.
  intros Hne Hext. induction base as [|c base IH].
  - simpl append. rewrite remove_ext_unfold.
    destruct ext as [|e ext]; [contradiction|].
    unfold ext_here. rewrite Hext. reflexivity.
  - change (String c base ++ "." ++ ext) with (String c (base ++ "." ++ ext)).
    rewrite remove_ext_unfold.
    assert (Hno : ext_here (String c (base ++ "." ++ ext)) = false).
    { unfold ext_here.
      destruct (base ++ "." ++ ext) as [|c' r] eqn:E; [reflexivity|].
      rewrite <- E. change ("." ++ ext) with (String "."%char ext).
      rewrite no_slash_dot_with_dot. apply andb_false_r. }
    rewrite Hno, IH. reflexivity.
Qed.

(** X3 on ["talk.final.m4a"]. *)
Lemma X3_final_extension_is_removed_witness :
  remove_ext ("talk.final" ++ "." ++ "m4a") = "talk.final".
Proof.
  apply (X3_final_extension_is_removed "talk.final" "m4a").
  - discriminate.
  - reflexivity.
Defined.

(** X4: the extension pattern only cuts a tail off: the result is a prefix
    of the name, and a name without full stop comes back as it is. *)
Theorem X4_name_without_extension_is_a_prefix (s : string) :
  (exists tail, s = remove_ext s ++ tail)
  /\ (no_dot s = true -> remove_ext s = s).
Proof.
  split.
  - induction s as [|c s [tail IH]]; rewrite remove_ext_unfold.
    + exists "". reflexivity.
    + destruct (ext_here (String c s)).
      * exists (String c s). reflexivity.
      * exists tail. simpl. now rewrite <- IH.
  - induction s as [|c s IH]; intro H; rewrite remove_ext_unfold.
    + reflexivity.
    + simpl in H. apply andb_true_iff in H. destruct H as [Hc Hs].
      assert (Hno : ext_here (String c s) = false).
      { unfold ext_here. destruct s; [reflexivity|].
        apply negb_true_iff in Hc. now rewrite Hc. }
      rewrite Hno, (IH Hs). reflexivity.
Qed.

Example names_that_keep_their_full_stops :
  remove_ext "a.b/c" = "a.b/c" /\ remove_ext "x." = "x."
  /\ remove_ext ".m4a" = "" /\ remove_ext "audio" = "audio".
Proof. repeat split. Qed.

End TextExtras.

(** ** What a run changes in the temp directory *)

Module FrameFacts.
Import Num Planner Text Node Trace Reading NodeFacts.
Local Open Scope string_scope.




(** The way a frame property is shown for a computation that ends in state
    [st'] after the calls [tr]. *)
Lemma frames_intro {A} (c : M A) :
  (forall st, exists tr,
      trace (snd (c st)) = (trace st ++ tr)%list
      /\ forall q, untouched q tr = true ->
                   lookup q (files (snd (c st))) = lookup q (files st)) ->
  frames c.
Proof. intros H st. exact (H st). Qed.










Section Frames.
Variable env : Env.
Variable unlink_error : list Event -> string -> option Error.



















End Frames.

End FrameFacts.

(** ** More on records and runs *)

Module RunExtras.
Import Num Planner Text Node Trace Reading Fixture.
Import NumFacts NodeFacts TerminationFacts FrameFacts.
Local Open Scope string_scope.

(** X8: a record without the named binary payload throws the host's error
    before anything else happens, whatever the operation: no call is made
    and nothing is pushed. *)
Theorem X8_missing_payload_throws_first (env : Env)
    (unlink_error : list Event -> string -> option Error)
    (fuel itemIndex : nat) (it : Item) (st : State) :
  lookup (binaryPropertyName (params it)) (item_binary it) = None ->
  process_item env unlink_error fuel itemIndex it st
  = (Throw (missing_binary env itemIndex (binaryPropertyName (params it))), st).
Proof.
  intro H. unfold process_item, assertBinaryData, bind. now rewrite H.
Qed.

(** X8 on a record whose payload is under another name. *)
Lemma X8_missing_payload_throws_first_witness :
  let env := env_of "calculateSegments" false (engine_ok one_second) in
  let item := {| item_binary := [("attachment", payload None)];
                 params := plan_params (30 # 1) 0 true |} in
  process_item env never_fails 1 0 item empty_state
  = (Throw (missing_binary env 0 "data"), empty_state).
Proof.
  intros env item.
  apply (X8_missing_payload_throws_first env never_fails 1 0 item empty_state).
  reflexivity.
Defined.

Lemma execute_loop_unknown_operation (env : Env)
    (unlink_error : list Event -> string -> option Error) (fuel : nat)
    (items : list Item) :
  known_operation env = false ->
  Forall (fun it =>
            lookup (binaryPropertyName (params it)) (item_binary it) <> None)
         items ->
  forall i st, execute_loop env unlink_error fuel items i st = (Ok tt, st).
Proof.
  intros Hk Hall. unfold known_operation in Hk.
  apply orb_false_iff in Hk. destruct Hk as [H1 H2].
  induction Hall as [|it rest Hit _ IH]; intros i st; [reflexivity|].
  simpl. unfold bind, try_catch, process_item, assertBinaryData,
    getBinaryDataBuffer, bind.
  destruct (lookup (binaryPropertyName (params it)) (item_binary it));
    [|contradiction].
  unfold ret. rewrite H1, H2. apply IH.
Qed.

(** X9: with an operation that is neither of the two the node offers, a
    run over records that have their payload does nothing: it returns one
    empty list of records and makes no call. *)
Theorem X9_unknown_operation_does_nothing (env : Env)
    (unlink_error : list Event -> string -> option Error) (fuel : nat)
    (items : list Item) (st : State) :
  known_operation env = false ->
  Forall (fun it =>
            lookup (binaryPropertyName (params it)) (item_binary it) <> None)
         items ->
  fst (execute env unlink_error fuel items st) = Ok [[]]
  /\ trace (snd (execute env unlink_error fuel items st)) = trace st
  /\ files (snd (execute env unlink_error fuel items st)) = files st.
Proof.
  intros Hk Hall. unfold execute.
  rewrite (execute_loop_unknown_operation env unlink_error fuel items Hk Hall).
  repeat split.
Qed.

(** X9 on two records and the operation ["probe"]. *)
Lemma X9_unknown_operation_does_nothing_witness :
  let env := env_of "probe" false (engine_ok one_second) in
  let items := [ item_of None (plan_params (30 # 1) 0 true);
                 item_of None (range_params (10 # 1) (5 # 1) None) ] in
  fst (execute env never_fails 1 items empty_state) = Ok [[]]
  /\ trace (snd (execute env never_fails 1 items empty_state)) = []
  /\ files (snd (execute env never_fails 1 items empty_state)) = [].
Proof.
  intros env items.
  apply (X9_unknown_operation_does_nothing env never_fails 1 items empty_state).
  - reflexivity.
  - repeat constructor; discriminate.
Defined.





(** The outcome of the record loop from record [i] on. *)
Lemma execute_loop_outcome (env : Env)
    (unlink_error : list Event -> string -> option Error) (fuel : nat)
    (items : list Item) :
  known_operation env = true ->
  forall (i : nat) (st : State),
  exists r st',
    execute_loop env unlink_error fuel items i st = (r, st')
    /\ (r = Ok tt ->
        exists outs,
          returnData st' = (returnData st ++ outs)%list
          /\ map pairedItem outs = seq i (List.length items))
    /\ (forall e, r = Throw e ->
        continueOnFail env = false
        /\ exists cause j outs,
             e = NodeOperationError cause (i + j)
             /\ (j < List.length items)%nat
             /\ returnData st' = (returnData st ++ outs)%list
             /\ map pairedItem outs = seq i j).
Proof.
  intro Hk. induction items as [|it rest IH]; intros i st.
  - exists (Ok tt), st. split; [reflexivity|]. split.
    + intros _. exists []. now rewrite app_nil_r.
    + discriminate.
  - destruct (process_item_summary env unlink_error fuel i it st)
      as (r1 & st1 & H1 & Hthrow & _ & Hok & _).
    rewrite Hk in Hok.
    assert (Hnext : forall o st2,
              returnData st2 = (returnData st ++ [o])%list ->
              pairedItem o = i ->
              exists r st',
                execute_loop env unlink_error fuel rest (S i) st2 = (r, st')
                /\ (r = Ok tt ->
                    exists outs,
                      returnData st' = (returnData st ++ outs)%list
                      /\ map pairedItem outs = seq i (List.length (it :: rest)))
                /\ (forall e, r = Throw e ->
                    continueOnFail env = false
                    /\ exists cause j outs,
                         e = NodeOperationError cause (i + j)
                         /\ (j < List.length (it :: rest))%nat
                         /\ returnData st' = (returnData st ++ outs)%list
                         /\ map pairedItem outs = seq i j)).
    { intros o st2 Ho Hp.
      destruct (IH (S i) st2) as (r & st' & H & Hret & Hthr).
      exists r, st'. split; [exact H|]. split.
      - intro Hr. destruct (Hret Hr) as (outs & Houts & Hmap).
        exists (o :: outs). rewrite Houts, Ho, <- app_assoc. simpl.
        split; [reflexivity|]. now rewrite Hp, Hmap.
      - intros e He. destruct (Hthr e He) as (Hc & cause & j & outs & -> & Hj & Houts & Hmap).
        split; [exact Hc|].
        exists cause, (S j), (o :: outs).
        rewrite Houts, Ho, <- app_assoc. simpl.
        repeat split; [f_equal; lia | lia | now rewrite Hp, Hmap]. }
    destruct r1 as [[] | e1 |].
    + destruct (Hok eq_refl) as (o & Ho & Hp).
      destruct (Hnext o st1 Ho Hp) as (r & st' & H & Hrest).
      exists r, st'. simpl. unfold bind, try_catch. rewrite H1.
      split; [exact H | exact Hrest].
    + rewrite (RunClaims.execute_loop_on_throw env unlink_error fuel it rest i
                 st st1 e1 H1).
      destruct (continueOnFail env) eqn:Hc.
      * set (record := {| json := JError (message e1); binary := None;
                          pairedItem := i |}).
        apply (Hnext record); [|reflexivity].
        simpl. now rewrite (Hthrow e1 eq_refl).
      * exists (Throw (NodeOperationError e1 i)), st1.
        split; [reflexivity|]. split; [discriminate|].
        intros e He. injection He as <-. split; [reflexivity|].
        exists e1, 0%nat, []. rewrite Nat.add_0_r, app_nil_r. simpl.
        repeat split; [lia | apply (Hthrow e1 eq_refl)].
    + exists Diverge, st1. simpl. unfold bind, try_catch. rewrite H1.
      split; [reflexivity|]. split; discriminate.
Qed.

(** X12: for the two operations the node offers, a run that returns yields
    one list with exactly one record per input record, each paired with its
    input and in input order; and a run can only throw a
    [NodeOperationError], only without continue-on-fail, and it then carries
    the position of a record of the input, the records before it having
    each pushed one record. *)
Theorem X12_run_outcome (env : Env)
    (unlink_error : list Event -> string -> option Error) (fuel : nat)
    (items : list Item) (st : State) :
  known_operation env = true ->
  exists r st',
    execute env unlink_error fuel items st = (r, st')
    /\ (forall outs, r = Ok outs ->
        exists records,
          outs = [records]
          /\ map pairedItem records = seq 0 (List.length items))
    /\ (forall e, r = Throw e ->
        continueOnFail env = false
        /\ exists cause j,
             e = NodeOperationError cause j
             /\ (j < List.length items)%nat
             /\ map pairedItem (returnData st') = seq 0 j).
Proof.
  intro Hk. unfold execute.
  set (st0 := {| clock := clock st; files := files st; trace := trace st;
                 returnData := [] |}).
  destruct (execute_loop_outcome env unlink_error fuel items Hk 0 st0)
    as (r & st' & H & Hret & Hthr).
  rewrite H. destruct r as [[] | e |].
  - eexists _, st'. split; [reflexivity|]. split; [|discriminate].
    intros outs Ho. injection Ho as <-.
    destruct (Hret eq_refl) as (records & Hrd & Hmap). simpl in Hrd.
    exists (returnData st'). split; [reflexivity|]. now rewrite Hrd.
  - exists (Throw e), st'. split; [reflexivity|]. split; [discriminate|].
    intros e' He. injection He as <-.
    destruct (Hthr e eq_refl) as (Hc & cause & j & outs & -> & Hj & Hrd & Hmap).
    split; [exact Hc|]. exists cause, j. simpl in Hrd.
    repeat split; [exact Hj | now rewrite Hrd].
  - exists Diverge, st'. split; [reflexivity|]. split; discriminate.
Qed.

(** X12 on three records of Extract Segment, the second with an empty time
    range, without continue-on-fail. *)
Lemma X12_run_outcome_witness :
  let env := env_of "extractSegment" false (engine_ok one_second) in
  let good := item_of (Some "talk.m4a") (range_params (10 # 1) (20 # 1) None) in
  let bad := item_of (Some "talk.m4a") (range_params (10 # 1) (10 # 1) None) in
  exists r st',
    execute env never_fails 1 [good; bad; good] empty_state = (r, st')
    /\ (forall outs, r = Ok outs ->
        exists records,
          outs = [records]
          /\ map pairedItem records = seq 0 3)
    /\ (forall e, r = Throw e ->
        continueOnFail env = false
        /\ exists cause j,
             e = NodeOperationError cause j
             /\ (j < 3)%nat
             /\ map pairedItem (returnData st') = seq 0 j).
Proof.
  intros env good bad.
  apply (X12_run_outcome env never_fails 1 [good; bad; good] empty_state).
  reflexivity.
Defined.




End RunExtras.

(** ** More on the two operations *)

Module RecordExtras.
Import Num Planner Text Node Trace Reading Fixture.
Import NumFacts PlannerFacts NodeFacts.
Local Open Scope string_scope.


Section Operations.
Variable env : Env.
Variable unlink_error : list Event -> string -> option Error.

(** X14: when the write of the input file succeeds and the probe exits
    normally but prints no duration of the form HH:MM:SS.ff, Calculate
    Segments throws "Could not extract duration from audio file": it has made
    no extraction, it pushes nothing, and the deletion of the input file is
    attempted. *)
Theorem X14_no_duration_in_probe_output (fuel itemIndex : nat)
    (binaryData : IBinaryData) (buffer : Buffer) (p : Params) (st : State) :
  let tempInputPath :=
    join (tmpdir env)
      ("input_" ++ show env (inject_Z (Date_now env (clock st))) ++ "_"
         ++ show_nat env itemIndex ++ "."
         ++ or_default (fileExtension binaryData) "m4a") in
  let probe := ProbeCmd (FFMPEG_PATH env) tempInputPath in
  let answer :=
    exec env (trace st ++ [EvWriteFile tempInputPath true])%list
      (obj_set tempInputPath buffer (files st)) probe in
  writeFile_error env (trace st) tempInputPath = None ->
  exit_error answer = None ->
  match_duration (stdout answer) = None ->
  exists st' ok,
    calculateSegments env unlink_error fuel itemIndex binaryData buffer p st
    = (Throw (Err "Could not extract duration from audio file"), st')
    /\ trace st'
       = (trace st ++ [ EvWriteFile tempInputPath true;
                        EvExec probe true false;
                        EvUnlink tempInputPath ok ])%list
    /\ returnData st' = returnData st.
Proof.
  intros tin probe answer Hw He Hm.
  unfold calculateSegments, bind, Date_now_call, writeFile.
  cbn [trace files clock returnData]. fold tin. rewrite Hw.
  unfold try_finally, probe_and_plan, bind, execAsync.
  cbn [trace files clock returnData log with_files]. fold probe. fold answer.
  rewrite He. cbn [output_of probe]. rewrite Hm. unfold throw.
  match goal with
  | |- context [catch_ignore (unlink unlink_error tin) ?s] =>
      destruct (unlink_quiet_spec unlink_error tin s)
        as (st' & ok & Hu & Htu & Hru & _)
  end.
  rewrite Hu. exists st', ok. split; [reflexivity|].
  cbn [trace returnData log with_files] in Htu, Hru.
  split; [rewrite Htu, <- !app_assoc; reflexivity | exact Hru].
Qed.

(** X15: without outputSegments, Calculate Segments never asks the engine
    for an extraction, however it ends; and when it returns, the record it
    pushes holds the planner's segments and no binary field. *)
Theorem X15_plan_only_makes_no_extraction (fuel itemIndex : nat) (it : Item)
    (st st' : State) (r : Result unit) :
  operation env = "calculateSegments" ->
  outputSegments (params it) <> Some true ->
  process_item env unlink_error fuel itemIndex it st = (r, st') ->
  exists tr,
    trace st' = (trace st ++ tr)%list
    /\ extractions tr = []
    /\ (r = Ok tt ->
        exists totalDuration segments,
          plan_segments fuel totalDuration (segmentLength (params it))
            (overlap (params it)) = Some segments
          /\ returnData st'
             = (returnData st
                ++ [ {| json := JPlan totalDuration (segmentLength (params it))
                                  (overlap (params it)) (List.length segments)
                                  segments;
                        binary := None; pairedItem := itemIndex |} ])%list).
Proof.
  intros Hop Hout.
  unfold process_item, assertBinaryData, getBinaryDataBuffer, bind.
  destruct (lookup (binaryPropertyName (params it)) (item_binary it)) as [b|].
  2:{ unfold throw. intro H. injection H as <- <-. exists [].
      rewrite app_nil_r. repeat split. discriminate. }
  unfold ret. rewrite Hop, String.eqb_refl.
  unfold calculateSegments, bind, Date_now_call.
  set (ext := or_default (fileExtension b) "m4a").
  set (tin := join (tmpdir env) _).
  set (st0 := {| clock := S (clock st); files := files st; trace := trace st;
                 returnData := returnData st |}).
  destruct (writeFile_spec env tin (data b) st0)
    as (rw & stw & okw & Hw & Htw & Hrw & Hcase).
  rewrite Hw. simpl in Htw, Hrw.
  destruct Hcase as [[-> [e ->]] | [-> ->]].
  { intro H. injection H as <- <-. exists [EvWriteFile tin false].
    split; [exact Htw|]. split; [reflexivity | discriminate]. }
  match goal with
  | |- context [try_finally ?bd ?c stw] =>
      destruct (try_finally_quiet bd c stw) as (r2 & mid & st2 & Hb & Htf & Hdiv & Hc)
  end.
  { intro s0. destruct (unlink_quiet_spec unlink_error tin s0) as (s' & ? & H & _).
    eauto. }
  rewrite Htf. intro H. injection H as <- <-.
  destruct (probe_and_plan_cases env unlink_error fuel itemIndex b (params it)
              tin ext stw)
    as (rp & stp & okp & lfp & _ & Htp & Hrp & Hcases).
  rewrite Hb in Hcases.
  set (probe := ProbeCmd (FFMPEG_PATH env) tin) in *.
  (* what the last deletion adds *)
  assert (Hlast : forall mid_calls,
            trace mid = (trace stp ++ mid_calls)%list ->
            extractions mid_calls = [] ->
            r2 <> Diverge ->
            exists tr, trace st2 = (trace st ++ tr)%list /\ extractions tr = []).
  { intros calls Hcalls Hex Hd.
    destruct (unlink_quiet_spec unlink_error tin mid) as (s' & ok & Hu & Htu & _).
    rewrite (Hc Hd) in Hu. injection Hu as <-.
    exists ([EvWriteFile tin true; EvExec probe okp lfp] ++ calls
              ++ [EvUnlink tin ok])%list.
    split.
    - rewrite Htu, Hcalls, Htp, Htw, <- !app_assoc. reflexivity.
    - simpl. rewrite extractions_app, Hex. reflexivity. }
  destruct Hcases as [(e & _ & Hrun) | [(out & _ & _ & Hrun)
                     | [(out & m & _ & _ & _ & Hrun)
                     | (out & m & segments & _ & Hm & Hplan & Hrun)]]].
  - injection Hrun as -> ->.
    destruct (Hlast [] (eq_sym (app_nil_r _)) eq_refl) as (tr & Ht & Hex);
      [discriminate|].
    exists tr. split; [exact Ht|]. split; [exact Hex | discriminate].
  - injection Hrun as -> ->.
    destruct (Hlast [] (eq_sym (app_nil_r _)) eq_refl) as (tr & Ht & Hex);
      [discriminate|].
    exists tr. split; [exact Ht|]. split; [exact Hex | discriminate].
  - injection Hrun as -> ->. rewrite (Hdiv eq_refl).
    exists [EvWriteFile tin true; EvExec probe okp lfp].
    split; [rewrite Htp, Htw, <- app_assoc; reflexivity|].
    split; [reflexivity | discriminate].
  - destruct (emit_plan_spec env unlink_error itemIndex b (params it) tin ext
                (total_duration m) segments stp)
      as (r3 & st3 & body & dels & He & Hd & Hs & _ & _ & _ & Hbody & _ & Hok).
    rewrite <- Hrun in He. injection He as <- <-.
    rewrite (Hbody Hout) in Hs.
    destruct Hs as (Hs1 & _ & Hs3 & _). simpl in Hs1, Hs3.
    destruct dels; [|discriminate].
    destruct (Hlast [] Hs1 eq_refl Hd) as (tr & Ht & Hex).
    exists tr. split; [exact Ht|]. split; [exact Hex|].
    intro Hr. destruct (Hok Hr) as (bin & Hrd & Hbin).
    assert (bin = None) by (now apply Hbin). subst bin.
    exists (total_duration m), segments. split; [exact Hplan|].
    destruct (unlink_quiet_spec unlink_error tin mid) as (s' & ok & Hu & _ & Hru & _).
    rewrite (Hc Hd) in Hu. injection Hu as <-.
    rewrite Hru, Hrd, Hrp, Hrw. reflexivity.
Qed.


Lemma obj_set_keys {A} (k : string) (v : A) (m : list (string * A)) :
  map fst (obj_set k v m)
  = if mentions k (map fst m) then map fst m else (map fst m ++ [k])%list.
Proof.
  unfold mentions. induction m as [|[k' w] m IH]; simpl; [reflexivity|].
  rewrite (String.eqb_sym k k').
  destruct (k' =? k) eqn:E; simpl.
  - apply String.eqb_eq in E. now subst.
  - rewrite IH. now destruct (existsb (String.eqb k) (map fst m)).
Qed.

Lemma mentions_false (k : string) (l : list string) :
  ~ In k l -> mentions k l = false.
Proof.
  intro H. unfold mentions. destruct (existsb (String.eqb k) l) eqn:E;
    [|reflexivity].
  apply existsb_exists in E. destruct E as (x & Hin & Hx).
  apply String.eqb_eq in Hx. subst x. contradiction.
Qed.

(** The entry one iteration of the batch loop sets. *)
Lemma extract_one_ok (binaryData : IBinaryData)
    (name tin ext base : string) (segment : Segment) (duration : number)
    (tout : string) (bo bo1 : list (string * IBinaryData)) (st st1 : State) :
  extract_one env binaryData name tin ext base segment duration tout bo st
  = (Ok bo1, st1) ->
  exists prepared,
    bo1 = obj_set (name ++ "_" ++ show_nat env (index segment + 1)) prepared bo.
Proof.
  unfold extract_one, bind.
  destruct (execAsync env _ st) as [[out | e |] s1]; [| discriminate | discriminate].
  destruct (readFile env tout s1) as [[bytes | e |] s2]; [| discriminate | discriminate].
  unfold await, ret, throw.
  destruct (prepareBinaryData env bytes _ (mimeType binaryData)) as [e | prepared];
    [discriminate|].
  intro H. injection H as <- _. eauto.
Qed.

(** The keys of [binaryOutput] after a batch loop that has not failed. *)
Lemma extract_segments_keys (i : nat) (binaryData : IBinaryData)
    (name tin ext base : string) (segments : list Segment) :
  forall (bo bo' : list (string * IBinaryData)) (paths paths' : list string)
         (st st' : State),
    extract_segments env i binaryData name tin ext base segments bo paths st
    = (Ok bo', paths', st') ->
    NoDup (map fst bo
           ++ map (fun seg => (name ++ "_" ++ show_nat env (index seg + 1))%string)
                segments)%list ->
    map fst bo'
    = (map fst bo
       ++ map (fun seg => (name ++ "_" ++ show_nat env (index seg + 1))%string)
            segments)%list.
Proof.
  induction segments as [|segment rest IH]; intros bo bo' paths paths' st st'.
  - simpl. intro H. injection H as <- _ _. now rewrite app_nil_r.
  - simpl. set (st0 := {| clock := S (clock st); files := files st;
                          trace := trace st; returnData := returnData st |}).
    set (tout := join (tmpdir env) _).
    destruct (extract_one env binaryData name tin ext base segment
                (end_ segment - start segment)%Q tout bo st0)
      as [[bo1 | e |] st1] eqn:H1; [| discriminate | discriminate].
    apply extract_one_ok in H1. destruct H1 as [prepared ->].
    intros H Hnd.
    assert (Hfresh : ~ In (name ++ "_" ++ show_nat env (index segment + 1))
                          (map fst bo)).
    { apply NoDup_remove_2 in Hnd. intro Hin. apply Hnd.
      apply in_or_app. now left. }
    assert (Hkeys : map fst (obj_set (name ++ "_" ++ show_nat env (index segment + 1))
                               prepared bo)
                    = (map fst bo
                       ++ [(name ++ "_" ++ show_nat env (index segment + 1))%string])%list).
    { rewrite obj_set_keys, (mentions_false _ _ Hfresh). reflexivity. }
    rewrite (IH _ _ _ _ _ _ H); rewrite Hkeys, <- app_assoc; [reflexivity|].
    exact Hnd.
Qed.

(** X17: when Calculate Segments with outputSegments returns, the keys of
    the binary payloads it pushes are, in order, the binary property name
    followed by ["_1"], ["_2"], ... up to the number of segments, one per
    segment, provided these keys differ from each other (as they do when
    the numbers are printed in decimal). *)
Theorem X17_batch_payloads_are_numbered (fuel itemIndex : nat) (it : Item)
    (st st' : State) :
  operation env = "calculateSegments" ->
  outputSegments (params it) = Some true ->
  process_item env unlink_error fuel itemIndex it st = (Ok tt, st') ->
  exists totalDuration segments bin,
    returnData st'
    = (returnData st
       ++ [ {| json := JPlan totalDuration (segmentLength (params it))
                         (overlap (params it)) (List.length segments) segments;
               binary := Some bin; pairedItem := itemIndex |} ])%list
    /\ map index segments = seq 0 (List.length segments)
    /\ (NoDup (map (segment_key env (binaryPropertyName (params it)))
                 (seq 0 (List.length segments))) ->
        map fst bin
        = map (segment_key env (binaryPropertyName (params it)))
            (seq 0 (List.length segments))).
Proof.
  intros Hop Hout.
  unfold process_item, assertBinaryData, getBinaryDataBuffer, bind.
  destruct (lookup (binaryPropertyName (params it)) (item_binary it)) as [b|];
    [|discriminate].
  unfold ret. rewrite Hop, String.eqb_refl.
  unfold calculateSegments, bind, Date_now_call.
  set (ext := or_default (fileExtension b) "m4a").
  set (tin := join (tmpdir env) _).
  set (st0 := {| clock := S (clock st); files := files st; trace := trace st;
                 returnData := returnData st |}).
  destruct (writeFile_spec env tin (data b) st0)
    as (rw & stw & okw & Hw & _ & Hrw & Hcase).
  rewrite Hw. simpl in Hrw.
  destruct Hcase as [[-> [e ->]] | [-> ->]]; [discriminate|].
  match goal with
  | |- context [try_finally ?bd ?c stw] =>
      destruct (try_finally_quiet bd c stw) as (r & mid & st2 & Hb & Htf & _ & Hc)
  end.
  { intro s0. destruct (unlink_quiet_spec unlink_error tin s0) as (s' & ? & H & _).
    eauto. }
  rewrite Htf. intro H. injection H as -> ->.
  destruct (probe_and_plan_cases env unlink_error fuel itemIndex b (params it)
              tin ext stw)
    as (rp & stp & okp & lfp & _ & _ & Hrp & Hcases).
  rewrite Hb in Hcases.
  destruct Hcases as [(e & _ & Hrun) | [(out & _ & _ & Hrun)
                     | [(out & m & _ & _ & _ & Hrun)
                     | (out & m & segments & _ & _ & Hplan & Hrun)]]];
    try discriminate.
  symmetry in Hrun. unfold emit_plan in Hrun. rewrite Hout in Hrun.
  destruct (extract_segments env itemIndex b (binaryPropertyName (params it))
              tin ext (remove_ext (or_default (fileName b) "audio"))
              segments [] [] stp) as [[r1 paths] st1] eqn:Hloop.
  match type of Hrun with
  | try_finally ?bd ?c st1 = _ =>
      destruct (try_finally_quiet bd c st1 (unlink_all_quiet unlink_error paths))
        as (r2 & mid2 & st3 & Hb2 & Htf2 & _ & Hc2)
  end.
  rewrite Htf2 in Hrun. injection Hrun as -> ->.
  unfold bind, lift_result, push in Hb2.
  destruct r1 as [bo | e |]; [| discriminate | discriminate].
  injection Hb2 as <-.
  destruct (extract_segments_spec env itemIndex b (binaryPropertyName (params it))
              tin ext (remove_ext (or_default (fileName b) "audio"))
              segments [] [] stp)
    as (r1' & paths' & st1' & tr & Hloop' & _ & Hr1 & _).
  rewrite Hloop in Hloop'. injection Hloop' as <- <- <-.
  destruct (unlink_all_spec unlink_error paths
              {| clock := clock st1; files := files st1; trace := trace st1;
                 returnData :=
                   (returnData st1
                    ++ [ {| json := JPlan (total_duration m)
                                      (segmentLength (params it))
                                      (overlap (params it))
                                      (List.length segments) segments;
                            binary := Some bo; pairedItem := itemIndex |} ])%list |})
    as (s4 & dels & H4 & _ & _ & Hr4 & _).
  rewrite (Hc2 ltac:(discriminate)) in H4. injection H4 as <-.
  destruct (unlink_quiet_spec unlink_error tin mid) as (s5 & ok & H5 & _ & Hr5 & _).
  rewrite (Hc ltac:(discriminate)) in H5. injection H5 as <-.
  assert (Hidx : map index segments = seq 0 (List.length segments)).
  { unfold plan_segments in Hplan. apply plan_loop_some in Hplan.
    destruct Hplan as (n & -> & _). simpl.
    rewrite length_map, length_seq, map_map. simpl.
    rewrite map_id. reflexivity. }
  exists (total_duration m), segments, bo.
  split; [rewrite Hr5, Hr4; simpl; rewrite Hr1, Hrp, Hrw; reflexivity|].
  split; [exact Hidx|].
  intro Hnd.
  assert (Hkeys : map (fun seg => binaryPropertyName (params it) ++ "_"
                                   ++ show_nat env (index seg + 1)) segments
                  = map (segment_key env (binaryPropertyName (params it)))
                      (seq 0 (List.length segments))).
  { rewrite <- Hidx, map_map. reflexivity. }
  rewrite <- Hkeys in Hnd |- *.
  apply (extract_segments_keys _ _ _ _ _ _ _ _ _ _ _ _ _ Hloop). exact Hnd.
Qed.

(** X18: when the engine fails in Extract Segment, the record throws the
    engine's own error: the output is not read, nothing is pushed, and the
    deletions of the input and of the output path are both attempted. *)
Theorem X18_failed_extraction_throws_engine_error (itemIndex : nat)
    (binaryData : IBinaryData) (buffer : Buffer) (p : Params) (st : State)
    (e : Error) :
  let ext := or_default (fileExtension binaryData) "m4a" in
  let tin :=
    join (tmpdir env)
      ("input_" ++ show env (inject_Z (Date_now env (clock st))) ++ "_"
         ++ show_nat env itemIndex ++ "." ++ ext) in
  let tout :=
    join (tmpdir env)
      ("output_" ++ show env (inject_Z (Date_now env (S (clock st)))) ++ "_"
         ++ show_nat env itemIndex ++ "." ++ ext) in
  let cmd := ExtractCmd (FFMPEG_PATH env) tin (startTime p)
               (endTime p - startTime p)%Q tout in
  let answer :=
    exec env (trace st ++ [EvWriteFile tin true])%list
      (obj_set tin buffer (files st)) cmd in
  startTime p < endTime p ->
  writeFile_error env (trace st) tin = None ->
  exit_error answer = Some e ->
  exists st' lf ok1 ok2,
    extractSegment env unlink_error itemIndex binaryData buffer p st
    = (Throw e, st')
    /\ trace st'
       = (trace st ++ [ EvWriteFile tin true; EvExec cmd false lf;
                        EvUnlink tin ok1; EvUnlink tout ok2 ])%list
    /\ returnData st' = returnData st.
Proof.
  intros ext tin tout cmd answer Hlt Hw He.
  unfold extractSegment.
  assert (Hle : leb (endTime p) (startTime p) = false).
  { destruct (leb (endTime p) (startTime p)) eqn:E; [|reflexivity].
    apply leb_true in E. exfalso. apply (Qlt_not_le _ _ Hlt E). }
  rewrite Hle. unfold bind at 1 2. unfold Date_now_call.
  cbn [clock files trace returnData]. fold ext. fold tin. fold tout.
  unfold bind at 1. unfold writeFile at 1.
  cbn [clock files trace returnData]. rewrite Hw.
  unfold try_finally, extract_body, bind at 1, execAsync.
  cbn [trace files clock returnData log with_files]. fold cmd. fold answer.
  rewrite He. change (output_of cmd) with (Some tout).
  destruct (produced answer) as [left|];
    match goal with
    | |- context [(catch_ignore (unlink unlink_error tin) ;;; _) ?s] =>
        unfold bind;
        destruct (unlink_quiet_spec unlink_error tin s)
          as (s1 & ok1 & Hu1 & Htu1 & Hru1 & _)
    end;
    rewrite Hu1;
    destruct (unlink_quiet_spec unlink_error tout s1)
      as (s2 & ok2 & Hu2 & Htu2 & Hru2 & _);
    rewrite Hu2;
    eexists s2, _, ok1, ok2; (split; [reflexivity|]);
    cbn [trace returnData log with_files] in Htu1, Hru1;
    (split; [rewrite Htu2, Htu1, <- !app_assoc; reflexivity
            | rewrite Hru2, Hru1; reflexivity]).
Qed.

End Operations.

(** X18 on an engine whose extractions fail. *)
Lemma X18_failed_extraction_throws_engine_error_witness :
  let env := env_of "extractSegment" false (engine_extract_fails one_second) in
  let tin := "/tmp/input_1700000000000_0.m4a" in
  let tout := "/tmp/output_1700000000001_0.m4a" in
  let cmd := ExtractCmd "/opt/ffmpeg" tin (10 # 1) ((20 # 1) - (10 # 1)) tout in
  exists st' lf ok1 ok2,
    extractSegment env never_fails 0 (payload None) [Byte.x01]
      (range_params (10 # 1) (20 # 1) None) empty_state
    = (Throw (Err "Command failed: ffmpeg"), st')
    /\ trace st'
       = ([] ++ [ EvWriteFile tin true; EvExec cmd false lf;
                  EvUnlink tin ok1; EvUnlink tout ok2 ])%list
    /\ returnData st' = [].
Proof.
  intros env tin tout cmd.
  apply (X18_failed_extraction_throws_engine_error env never_fails 0
           (payload None) [Byte.x01] (range_params (10 # 1) (20 # 1) None)
           empty_state (Err "Command failed: ffmpeg")).
  - reflexivity.
  - reflexivity.
  - reflexivity.
Defined.


(** X17 on one second in two segments: the payloads are under ["data_1"]
    and ["data_2"]. *)
Lemma X17_batch_payloads_are_numbered_witness :
  let env := env_of "calculateSegments" false (engine_ok one_second) in
  let item := item_of (Some "talk.m4a") (plan_params (1 # 2) 0 true) in
  let st' := snd (process_item env never_fails 3 0 item empty_state) in
  exists totalDuration segments bin,
    returnData st'
    = ([] ++ [ {| json := JPlan totalDuration (1 # 2) 0
                            (List.length segments) segments;
                  binary := Some bin; pairedItem := 0 |} ])%list
    /\ map index segments = seq 0 (List.length segments)
    /\ (NoDup (map (segment_key env "data") (seq 0 (List.length segments))) ->
        map fst bin
        = map (segment_key env "data") (seq 0 (List.length segments))).
Proof.
  intros env item st'.
  apply (X17_batch_payloads_are_numbered env never_fails 3 0 item empty_state st').
  - reflexivity.
  - reflexivity.
  - vm_compute. reflexivity.
Defined.

Example batch_payload_keys :
  let env := env_of "calculateSegments" false (engine_ok one_second) in
  let item := item_of (Some "talk.m4a") (plan_params (1 # 2) 0 true) in
  map (fun o => option_map (map fst) (binary o))
    (returnData (snd (process_item env never_fails 3 0 item empty_state)))
  = [Some ["data_1"; "data_2"]]
  /\ map (segment_key env "data") (seq 0 2) = ["data_1"; "data_2"].
Proof. vm_compute. split; reflexivity. Qed.

(** X15 on a plan of one second in two segments. *)
Lemma X15_plan_only_makes_no_extraction_witness :
  let env := env_of "calculateSegments" false (engine_ok one_second) in
  let item := item_of (Some "talk.m4a") (plan_params (1 # 2) 0 false) in
  let st' := snd (process_item env never_fails 3 0 item empty_state) in
  exists tr,
    trace st' = ([] ++ tr)%list
    /\ extractions tr = []
    /\ (Ok tt = Ok tt ->
        exists totalDuration segments,
          plan_segments 3 totalDuration (1 # 2) 0 = Some segments
          /\ returnData st'
             = ([] ++ [ {| json := JPlan totalDuration (1 # 2) 0
                                     (List.length segments) segments;
                           binary := None; pairedItem := 0 |} ])%list).
Proof.
  intros env item st'.
  apply (X15_plan_only_makes_no_extraction env never_fails 3 0 item empty_state
           st' (Ok tt)).
  - reflexivity.
  - discriminate.
  - vm_compute. reflexivity.
Defined.

(** X14 on a probe that prints ["Duration: N/A"]. *)
Lemma X14_no_duration_in_probe_output_witness :
  let env := env_of "calculateSegments" false
               (engine_ok "  Duration: N/A, bitrate: N/A") in
  let tin := "/tmp/input_1700000000000_0.m4a" in
  exists st' ok,
    calculateSegments env never_fails 1 0 (payload None) [Byte.x01]
      (plan_params (30 # 1) 0 true) empty_state
    = (Throw (Err "Could not extract duration from audio file"), st')
    /\ trace st'
       = ([] ++ [ EvWriteFile tin true;
                  EvExec (ProbeCmd "/opt/ffmpeg" tin) true false;
                  EvUnlink tin ok ])%list
    /\ returnData st' = [].
Proof.
  intros env tin.
  apply (X14_no_duration_in_probe_output env never_fails 1 0 (payload None)
           [Byte.x01] (plan_params (30 # 1) 0 true) empty_state).
  - reflexivity.
  - reflexivity.
  - reflexivity.
Defined.

End RecordExtras.
